(** * idemixgen: the provisioning workflows of [common/tools/idemixgen]

    A shallow embedding of [idemixgen.go].  The tool is a straight-line
    program over the file system of its working directory: every helper
    may terminate the process through [handleError], so the code is
    embedded in a small state-and-exit monad [Proc] over a [World] that
    holds the file system, the lines printed so far and a log of the
    calls made to the operating system and to the external packages. *)

From stdpp Require Import gmap strings list fin_maps.
From Stdlib Require Import ZArith.
From Stdlib.Strings Require Import Byte.

Local Open Scope string_scope.
Local Open Scope list_scope.
Local Open Scope Z_scope.

(** ** Errors

    The Go [error] values this program can meet: the [*os.PathError]
    of a failed system call, the values built by [errors.New] and
    [errors.Wrapf] of [github.com/pkg/errors], and the errors returned by
    the external packages (key generation, protobuf), which are opaque
    but for their message. *)

Inductive Errno :=
| ENOENT | EEXIST | ENOTDIR | EISDIR
| EACCES | ENOSPC | EROFS | EIO.

#[global] Instance Errno_eq_dec : EqDecision Errno.
Proof. solve_decision. Defined.

Definition Errno_Error (e : Errno) : string :=
  match e with
  | ENOENT => "no such file or directory"
  | EEXIST => "file exists"
  | ENOTDIR => "not a directory"
  | EISDIR => "is a directory"
  | EACCES => "permission denied"
  | ENOSPC => "no space left on device"
  | EROFS => "read-only file system"
  | EIO => "input/output error"
  end.

Inductive error :=
| PathError (op path : string) (errno : Errno)
| errors_New (message : string)
| errors_Wrapf (cause : error) (message : string)
| ForeignError (message : string).

(** [err.Error()], which is what [fmt.Println(err)] prints. *)
Fixpoint Error (e : error) : string :=
  match e with
  | PathError op path errno => op +:+ " " +:+ path +:+ ": " +:+ Errno_Error errno
  | errors_New message => message
  | errors_Wrapf cause message => message +:+ ": " +:+ Error cause
  | ForeignError message => message
  end.

(** ** The file system

    The working directory as a finite map from relative, slash-separated
    path names to nodes.  Names are used as written (the program only
    builds clean relative names) and the working directory itself always
    exists.  A node keeps the permission bits it was created with, which
    are the requested ones less the bits of the process umask.

    Whether a directory entry can be made, and whether the bytes of a
    file reach the device, depends on more than the tree shows: on who
    runs the process and the access rights of the directory, on a
    read-only or full device, on a dangling symbolic link that holds the
    name.  The model does not derive these from the tree but takes them
    from the environment: [denied] names the entries that cannot be
    created or opened for writing, with the error the system call then
    returns, and [failing] the files whose writing breaks off, with the
    error and the number of bytes that reach the file before it.
    Looking a name up and reading a file are modelled for a process that
    may search the directories and read the files the tree holds. *)

Definition FileMode := Z.

Inductive Node :=
| Dir (mode : FileMode)
| File (mode : FileMode) (data : list byte).

Record FileSystem := MkFS {
  nodes : gmap string Node;
  umask : FileMode;
  denied : string -> option Errno;
  failing : string -> option (Errno * nat)
}.

Definition set_nodes (f : gmap string Node -> gmap string Node) (fsys : FileSystem)
  : FileSystem :=
  {| nodes := f (nodes fsys); umask := umask fsys;
     denied := denied fsys; failing := failing fsys |}.

(** An environment that stands in the way of nothing. *)
Definition nothing_denied : string -> option Errno := fun _ => None.
Definition nothing_failing : string -> option (Errno * nat) := fun _ => None.

(** Three octal digits, as in the Go literals [0770] and [0640]. *)
Definition octal (u g o : Z) : FileMode :=
  Z.lor (Z.shiftl u 6) (Z.lor (Z.shiftl g 3) o).

Definition create_mode (perm : FileMode) (fsys : FileSystem) : FileMode :=
  Z.ldiff perm (umask fsys).

(** The directory part of a name: everything before its last slash, if
    it has one. *)
Fixpoint parent (name : string) : option string :=
  match name with
  | EmptyString => None
  | String c rest =>
      match parent rest with
      | Some d => Some (String c d)
      | None => if Ascii.eqb c (Ascii.ascii_of_nat 47) then Some EmptyString else None
      end
  end.

(** Resolution of the directory part of [name]. *)
Definition lookup_parent (name : string) (fsys : FileSystem) : option Errno :=
  if decide (name = EmptyString) then Some ENOENT
  else match parent name with
       | None => None
       | Some d =>
           match nodes fsys !! d with
           | Some (Dir _) => None
           | Some (File _ _) => Some ENOTDIR
           | None => Some ENOENT
           end
       end.

(** [os.Stat(name)], of which the program only uses the error. *)
Definition stat (name : string) (fsys : FileSystem) : option error :=
  match lookup_parent name fsys with
  | Some e => Some (PathError "stat" name e)
  | None =>
      match nodes fsys !! name with
      | Some _ => None
      | None => Some (PathError "stat" name ENOENT)
      end
  end.

(** [os.Mkdir(name, perm)]: fails, and changes nothing, when the
    directory part of the name does not resolve, when the name is taken,
    or when the environment refuses the new entry. *)
Definition mkdir (name : string) (perm : FileMode) (fsys : FileSystem)
  : option error * FileSystem :=
  match lookup_parent name fsys with
  | Some e => (Some (PathError "mkdir" name e), fsys)
  | None =>
      match nodes fsys !! name with
      | Some _ => (Some (PathError "mkdir" name EEXIST), fsys)
      | None =>
          match denied fsys name with
          | Some e => (Some (PathError "mkdir" name e), fsys)
          | None =>
              (None, set_nodes (insert name (Dir (create_mode perm fsys))) fsys)
          end
      end
  end.

(** What [ioutil.WriteFile] does once the file is open: the file, new or
    truncated, receives the data, or only the first bytes of it when the
    writing breaks off. *)
Definition write_opened (name : string) (mode : FileMode) (data : list byte)
    (fsys : FileSystem) : option error * FileSystem :=
  match failing fsys name with
  | Some (e, n) =>
      (Some (PathError "write" name e),
       set_nodes (insert name (File mode (take n data))) fsys)
  | None => (None, set_nodes (insert name (File mode data)) fsys)
  end.

(** [ioutil.WriteFile(name, data, perm)]: opens the file for writing,
    creating it with [perm] (before umask) if it does not exist and
    truncating it otherwise, which leaves its permissions alone; then
    writes.  A failure to open changes nothing; a failure to write leaves
    the file with what was written. *)
Definition write_file (name : string) (data : list byte) (perm : FileMode)
    (fsys : FileSystem) : option error * FileSystem :=
  match lookup_parent name fsys with
  | Some e => (Some (PathError "open" name e), fsys)
  | None =>
      match nodes fsys !! name, denied fsys name with
      | Some (Dir _), _ => (Some (PathError "open" name EISDIR), fsys)
      | _, Some e => (Some (PathError "open" name e), fsys)
      | Some (File mode _), None => write_opened name mode data fsys
      | None, None => write_opened name (create_mode perm fsys) data fsys
      end
  end.

(** [ioutil.ReadFile(name)]: the contents and a nil error, or nil
    contents and the error.  The file is read as the tree holds it: the
    process is taken to be allowed to read it, and the permission bits
    the tree records are not consulted. *)
Definition read_file (name : string) (fsys : FileSystem) : list byte * option error :=
  match lookup_parent name fsys with
  | Some e => ([], Some (PathError "open" name e))
  | None =>
      match nodes fsys !! name with
      | Some (File _ data) => (data, None)
      | Some (Dir _) => ([], Some (PathError "read" name EISDIR))
      | None => ([], Some (PathError "open" name ENOENT))
      end
  end.

(** [filepath.Join]: the non-empty elements separated by slashes.  The
    final [Clean] of the Go function is the identity on every name the
    program joins. *)
Fixpoint filepath_Join (elem : list string) : string :=
  match elem with
  | [] => EmptyString
  | e :: rest =>
      if decide (e = EmptyString) then filepath_Join rest
      else match filepath_Join rest with
           | EmptyString => e
           | tail => e +:+ "/" +:+ tail
           end
  end.

(** ** Constants *)

Definition IdemixDirIssuer : string := "ca".
Definition IdemixConfigIssuerSecretKey : string := "IssuerSecretKey".

(** Modelled from the spec: the constant [msp.IdemixConfigDirMsp] of
    package [msp], which is not part of the sources at hand.  The
    documented layout puts the public copy of the issuer public key at
    [msp/IssuerPublicKey]. *)
Definition msp_IdemixConfigDirMsp : string := "msp".

(** Modelled from the spec: the constant
    [msp.IdemixConfigFileIssuerPublicKey] of the same package.  The
    documented layout names the files [ca/IssuerPublicKey] and
    [msp/IssuerPublicKey]. *)
Definition msp_IdemixConfigFileIssuerPublicKey : string := "IssuerPublicKey".

(** The double-quote character, written with a backslash escape in the
    Go string literal of the signer message. *)
Definition dquote : string := String (Ascii.ascii_of_nat 34) EmptyString.

(** ** The process monad *)

Section Idemixgen.

(** [idemix.IssuerPublicKey], the protobuf message of the public key. *)
Context {IssuerPublicKey : Type}.

(** [idemix.IssuerKey], built positionally by [readIssuerKey]. *)
Record IssuerKey := MkIssuerKey { ISk : list byte; IPk : IssuerPublicKey }.

(** The calls that leave the program, with the error each returned. *)
Inductive Call :=
| Call_GenerateIssuerKey (err : option error)
| Call_GenerateSignerConfig (isAdmin : bool) (ou : string) (key : IssuerKey)
    (err : option error)
| Call_Unmarshal (buf : list byte) (err : option error)
| Call_GetVersionInfo
| Call_Stat (name : string) (err : option error)
| Call_Mkdir (name : string) (perm : FileMode) (err : option error)
| Call_WriteFile (name : string) (data : list byte) (perm : FileMode)
    (err : option error)
| Call_ReadFile (name : string) (err : option error).

Record World := MkWorld {
  fs : FileSystem;
  stdout : list string;
  calls : list Call
}.

Definition logged (c : Call) (w : World) : World :=
  {| fs := fs w; stdout := stdout w; calls := calls w ++ [c] |}.

Definition with_fs (fsys : FileSystem) (w : World) : World :=
  {| fs := fsys; stdout := stdout w; calls := calls w |}.

(** A computation either returns to its caller or has ended the process
    with an exit status ([os.Exit]).  [main] returning is exit status 0. *)
Inductive Outcome (A : Type) :=
| Returned (a : A) (w : World)
| Exited (code : Z) (w : World).
Arguments Returned {A} a w.
Arguments Exited {A} code w.

Definition Proc (A : Type) : Type := World -> Outcome A.

Definition ret {A} (a : A) : Proc A := fun w => Returned a w.

Definition bind {A B} (m : Proc A) (k : A -> Proc B) : Proc B :=
  fun w =>
    match m w with
    | Returned a w' => k a w'
    | Exited code w' => Exited code w'
    end.

Definition final {A} (o : Outcome A) : World :=
  match o with Returned _ w => w | Exited _ w => w end.

Definition exit_status {A} (o : Outcome A) : Z :=
  match o with Returned _ _ => 0 | Exited code _ => code end.

Notation "'let*' x ':=' c1 'in' c2" := (bind c1 (fun x => c2))
  (at level 100, x pattern, c1 at next level, right associativity).
Notation "c1 ;; c2" := (bind c1 (fun _ => c2))
  (at level 100, right associativity).

(** *** The operating system *)

Definition os_Exit {A} (code : Z) : Proc A := fun w => Exited code w.

Definition fmt_Println (line : string) : Proc unit :=
  fun w => Returned tt {| fs := fs w; stdout := stdout w ++ [line]; calls := calls w |}.

Definition os_Stat (name : string) : Proc (option error) :=
  fun w =>
    let err := stat name (fs w) in
    Returned err (logged (Call_Stat name err) w).

Definition os_Mkdir (name : string) (perm : FileMode) : Proc (option error) :=
  fun w =>
    let '(err, fsys) := mkdir name perm (fs w) in
    Returned err (logged (Call_Mkdir name perm err) (with_fs fsys w)).

Definition ioutil_WriteFile (name : string) (data : list byte) (perm : FileMode)
  : Proc (option error) :=
  fun w =>
    let '(err, fsys) := write_file name data perm (fs w) in
    Returned err (logged (Call_WriteFile name data perm err) (with_fs fsys w)).

Definition ioutil_ReadFile (name : string) : Proc (list byte * option error) :=
  fun w =>
    let '(data, err) := read_file name (fs w) in
    Returned (data, err) (logged (Call_ReadFile name err) w).

(** *** The external packages

    Key generation ([idemixca]), the protobuf codec and the version
    string ([metadata]) are collaborators of the tool.  One value of
    [Extern] fixes how they answer during one run: key generation draws
    on randomness, so its answer is a field rather than a function of
    the program's state. *)

Record Extern := MkExtern {
  GenerateIssuerKey_result : list byte * list byte * option error;
  GenerateSignerConfig_result : bool -> string -> IssuerKey -> list byte * option error;
  (** [proto.Unmarshal(buf, pb)] fills the message [pb] and returns an error *)
  Unmarshal_result : list byte -> IssuerPublicKey -> IssuerPublicKey * option error;
  Marshal_result : IssuerPublicKey -> list byte;
  (** the literal [&idemix.IssuerPublicKey{}] *)
  IssuerPublicKey_empty : IssuerPublicKey;
  GetVersionInfo_result : string
}.

Context (ext : Extern).

Definition idemixca_GenerateIssuerKey : Proc (list byte * list byte * option error) :=
  fun w =>
    let r := GenerateIssuerKey_result ext in
    Returned r (logged (Call_GenerateIssuerKey (snd r)) w).

Definition idemixca_GenerateSignerConfig (isAdmin : bool) (ou : string)
    (key : IssuerKey) : Proc (list byte * option error) :=
  fun w =>
    let r := GenerateSignerConfig_result ext isAdmin ou key in
    Returned r (logged (Call_GenerateSignerConfig isAdmin ou key (snd r)) w).

Definition proto_Unmarshal (buf : list byte) (pb : IssuerPublicKey)
  : Proc (IssuerPublicKey * option error) :=
  fun w =>
    let r := Unmarshal_result ext buf pb in
    Returned r (logged (Call_Unmarshal buf (snd r)) w).

Definition metadata_GetVersionInfo : Proc string :=
  fun w => Returned (GetVersionInfo_result ext) (logged Call_GetVersionInfo w).

(** ** The program *)

(** The two remaining constants of package [msp], the directory of the
    default signer and the name of its configuration file, are
    parameters: the code creates the directory with a single [os.Mkdir]
    and joins the file name to it, and nothing below depends on their
    values. *)
Context (msp_IdemixConfigDirUser msp_IdemixConfigFileSigner : string).

(** The command selected by [kingpin.MustParse(app.Parse(os.Args[1:]))],
    with the values of the flags of [signerconfig]. *)
Inductive Command :=
| genIssuerKey
| genSignerConfig (genCredOU : string) (genCredIsAdmin : bool)
| version.

Definition handleError (err : option error) : Proc unit :=
  match err with
  | Some e => fmt_Println (Error e) ;; os_Exit 1
  | None => ret tt
  end.

Definition checkDirectoryNotExists (path errorMessage : string) : Proc unit :=
  let* err := os_Stat path in
  match err with
  | None => handleError (Some (errors_New errorMessage))
  | Some _ => ret tt
  end.

Definition writeFile (path : string) (contents : list byte) : Proc unit :=
  let* err := ioutil_WriteFile path contents (octal 6 4 0) in
  handleError err.

Definition printVersion : Proc unit :=
  let* info := metadata_GetVersionInfo in
  fmt_Println info.

Definition readIssuerKey : Proc IssuerKey :=
  let path := filepath_Join [IdemixDirIssuer; IdemixConfigIssuerSecretKey] in
  let* (isk, err) := ioutil_ReadFile path in
  match err with
  | Some e =>
      handleError
        (Some (errors_Wrapf e ("failed to open issuer secret key file: " +:+ path)))
  | None => ret tt
  end ;;
  let path := filepath_Join [IdemixDirIssuer; msp_IdemixConfigFileIssuerPublicKey] in
  let* (ipkBytes, err) := ioutil_ReadFile path in
  match err with
  | Some e =>
      handleError
        (Some (errors_Wrapf e ("failed to open issuer public key file: " +:+ path)))
  | None => ret tt
  end ;;
  let* (ipk, err) := proto_Unmarshal ipkBytes (IssuerPublicKey_empty ext) in
  handleError err ;;
  let key := MkIssuerKey isk ipk in
  ret key.

Definition main (command : Command) : Proc unit :=
  match command with
  | genIssuerKey =>
      let* (isk, ipk, err) := idemixca_GenerateIssuerKey in
      handleError err ;;
      let path := filepath_Join [IdemixDirIssuer] in
      checkDirectoryNotExists path ("Directory " +:+ path +:+ " already exists") ;;
      let path := msp_IdemixConfigDirMsp in
      checkDirectoryNotExists path ("Directory " +:+ path +:+ " already exists") ;;
      let* err := os_Mkdir IdemixDirIssuer (octal 7 7 0) in
      handleError err ;;
      let* err := os_Mkdir msp_IdemixConfigDirMsp (octal 7 7 0) in
      handleError err ;;
      writeFile (filepath_Join [IdemixDirIssuer; IdemixConfigIssuerSecretKey]) isk ;;
      writeFile
        (filepath_Join [IdemixDirIssuer; msp_IdemixConfigFileIssuerPublicKey]) ipk ;;
      writeFile
        (filepath_Join [msp_IdemixConfigDirMsp; msp_IdemixConfigFileIssuerPublicKey])
        ipk
  | genSignerConfig genCredOU genCredIsAdmin =>
      let* key := readIssuerKey in
      let* (config, err) := idemixca_GenerateSignerConfig genCredIsAdmin genCredOU key in
      handleError err ;;
      let path := msp_IdemixConfigDirUser in
      checkDirectoryNotExists path
        ("This MSP config already contains a directory " +:+ dquote +:+ path +:+ dquote) ;;
      let* err := os_Mkdir msp_IdemixConfigDirUser (octal 7 7 0) in
      handleError err ;;
      writeFile (filepath_Join [msp_IdemixConfigDirUser; msp_IdemixConfigFileSigner])
        config
  | version => printVersion
  end.

End Idemixgen.

Arguments Returned {IssuerPublicKey A} a w.
Arguments Exited {IssuerPublicKey A} code w.

(** ** Vocabulary of the properties *)

Section Vocabulary.

Context {IssuerPublicKey : Type}.
Context (msp_IdemixConfigDirUser msp_IdemixConfigFileSigner : string).

#[local] Abbreviation Call := (@Call IssuerPublicKey).
#[local] Abbreviation World := (@World IssuerPublicKey).
#[local] Abbreviation Outcome := (@Outcome IssuerPublicKey).

(** Every node of a real directory tree has a name and lies in a
    directory. *)
Definition well_formed (fsys : FileSystem) : Prop :=
  map_Forall (fun name _ => lookup_parent name fsys = None) (nodes fsys).

#[global] Instance well_formed_dec (fsys : FileSystem) : Decision (well_formed fsys).
Proof. unfold well_formed. apply _. Defined.

Definition node_mode (n : Node) : FileMode :=
  match n with Dir mode => mode | File mode _ => mode end.

Definition is_file (n : option Node) : bool :=
  match n with Some (File _ _) => true | _ => false end.

(** Permission bits of the group and of others, and of others alone. *)
Definition owner_only (mode : FileMode) : Prop := Z.land mode (octal 0 7 7) = 0.
Definition closed_to_others (mode : FileMode) : Prop := Z.land mode (octal 0 0 7) = 0.

(** The effect of a logged call on the file system: only [os.Mkdir] and
    [ioutil.WriteFile] have one. *)
Definition apply_call (fsys : FileSystem) (c : Call) : FileSystem :=
  match c with
  | Call_Mkdir name perm _ => snd (mkdir name perm fsys)
  | Call_WriteFile name data perm _ => snd (write_file name data perm fsys)
  | _ => fsys
  end.

Definition replay (seg : list Call) (fsys : FileSystem) : FileSystem :=
  foldl apply_call fsys seg.

(** The error a logged call records is the one the file system gave at
    that point of the run. *)
Definition answers (fsys : FileSystem) (c : Call) : Prop :=
  match c with
  | Call_Stat name err => err = stat name fsys
  | Call_Mkdir name perm err => err = fst (mkdir name perm fsys)
  | Call_WriteFile name data perm err => err = fst (write_file name data perm fsys)
  | Call_ReadFile name err => err = snd (read_file name fsys)
  | _ => True
  end.

Fixpoint faithful (fsys : FileSystem) (seg : list Call) : Prop :=
  match seg with
  | [] => True
  | c :: rest => answers fsys c /\ faithful (apply_call fsys c) rest
  end.

(** The probe answered that nothing has the name. *)
Definition plain_absence (c : Call) : Prop :=
  match c with
  | Call_Stat name err => err = Some (PathError "stat" name ENOENT)
  | _ => True
  end.

(** A call that writes nothing but the key material of [ca-keygen],
    each part under its own name. *)
Definition key_material_write (isk ipk : list byte) (c : Call) : Prop :=
  match c with
  | Call_WriteFile name data _ _ =>
      (name = filepath_Join [IdemixDirIssuer; IdemixConfigIssuerSecretKey] /\
       data = isk) \/
      ((name = filepath_Join [IdemixDirIssuer; msp_IdemixConfigFileIssuerPublicKey] \/
        name =
          filepath_Join [msp_IdemixConfigDirMsp; msp_IdemixConfigFileIssuerPublicKey]) /\
       data = ipk)
  | _ => True
  end.

Definition mutates (c : Call) : bool :=
  match c with
  | Call_Mkdir _ _ _ | Call_WriteFile _ _ _ _ => true
  | _ => false
  end.

Definition is_read (c : Call) : bool :=
  match c with Call_ReadFile _ _ => true | _ => false end.


Definition is_nil (err : option error) : bool :=
  match err with None => true | Some _ => false end.

(** [os.IsNotExist]: the error says that nothing has the name. *)
Definition is_not_exist (err : option error) : bool :=
  match err with
  | Some (PathError _ _ ENOENT) => true
  | _ => false
  end.

(** A step has passed when its call returned no error; the existence
    probe of [checkDirectoryNotExists] has passed when [os.Stat] answered
    that nothing has the name. *)
Definition passed (c : Call) : bool :=
  match c with
  | Call_GetVersionInfo => true
  | Call_Stat _ err => is_not_exist err
  | Call_GenerateIssuerKey err
  | Call_GenerateSignerConfig _ _ _ err
  | Call_Unmarshal _ err
  | Call_Mkdir _ _ err
  | Call_WriteFile _ _ _ err
  | Call_ReadFile _ err => is_nil err
  end.

(** What the code goes on from: a call that returned no error, and an
    [os.Stat] that returned an error, whichever it is. *)
Definition let_through (c : Call) : bool :=
  match c with
  | Call_GetVersionInfo => true
  | Call_Stat _ err => negb (is_nil err)
  | Call_GenerateIssuerKey err
  | Call_GenerateSignerConfig _ _ _ err
  | Call_Unmarshal _ err
  | Call_Mkdir _ _ err
  | Call_WriteFile _ _ _ err
  | Call_ReadFile _ err => is_nil err
  end.

(** The permission argument of a call that may create a node. *)
Definition requests (dir_perm file_perm : FileMode) (c : Call) : bool :=
  match c with
  | Call_Mkdir _ perm _ => perm =? dir_perm
  | Call_WriteFile _ _ perm _ => perm =? file_perm
  | _ => true
  end.

(** The error handed to [handleError] when a step stops the workflow. *)
Definition raised_by (c : Call) (e : error) : Prop :=
  match c with
  | Call_GetVersionInfo => False
  | Call_Stat _ err => err = None /\ exists message, e = errors_New message
  | Call_ReadFile _ err =>
      exists cause message, err = Some cause /\ e = errors_Wrapf cause message
  | Call_GenerateIssuerKey err
  | Call_GenerateSignerConfig _ _ _ err
  | Call_Unmarshal _ err
  | Call_Mkdir _ _ err
  | Call_WriteFile _ _ _ err => err = Some e
  end.

(** The steps of a workflow, in program order. *)
Inductive Step :=
| Step_GenerateIssuerKey
| Step_GenerateSignerConfig
| Step_Unmarshal
| Step_GetVersionInfo
| Step_Stat (name : string)
| Step_Mkdir (name : string)
| Step_WriteFile (name : string)
| Step_ReadFile (name : string).

Definition step_of (c : Call) : Step :=
  match c with
  | Call_GenerateIssuerKey _ => Step_GenerateIssuerKey
  | Call_GenerateSignerConfig _ _ _ _ => Step_GenerateSignerConfig
  | Call_Unmarshal _ _ => Step_Unmarshal
  | Call_GetVersionInfo => Step_GetVersionInfo
  | Call_Stat name _ => Step_Stat name
  | Call_Mkdir name _ _ => Step_Mkdir name
  | Call_WriteFile name _ _ _ => Step_WriteFile name
  | Call_ReadFile name _ => Step_ReadFile name
  end.

Definition issuer_secret_key_file : string :=
  filepath_Join [IdemixDirIssuer; IdemixConfigIssuerSecretKey].
Definition issuer_public_key_file : string :=
  filepath_Join [IdemixDirIssuer; msp_IdemixConfigFileIssuerPublicKey].
Definition msp_public_key_file : string :=
  filepath_Join [msp_IdemixConfigDirMsp; msp_IdemixConfigFileIssuerPublicKey].

Definition plan (command : Command) : list Step :=
  match command with
  | genIssuerKey =>
      [ Step_GenerateIssuerKey;
        Step_Stat IdemixDirIssuer; Step_Stat msp_IdemixConfigDirMsp;
        Step_Mkdir IdemixDirIssuer; Step_Mkdir msp_IdemixConfigDirMsp;
        Step_WriteFile issuer_secret_key_file;
        Step_WriteFile issuer_public_key_file;
        Step_WriteFile msp_public_key_file ]
  | genSignerConfig _ _ =>
      [ Step_ReadFile issuer_secret_key_file;
        Step_ReadFile issuer_public_key_file;
        Step_Unmarshal;
        Step_GenerateSignerConfig;
        Step_Stat msp_IdemixConfigDirUser;
        Step_Mkdir msp_IdemixConfigDirUser;
        Step_WriteFile
          (filepath_Join [msp_IdemixConfigDirUser; msp_IdemixConfigFileSigner]) ]
  | version => [ Step_GetVersionInfo ]
  end.

(** What holds of a file system reached from [base] by calls that
    request [dperm] for directories and [fperm] for files: the umask is
    the same, and a name that was free in [base] is still free or holds
    a node created with the requested bits less the umask. *)
Definition grown_from (dperm fperm : FileMode) (base fsys : FileSystem) : Prop :=
  umask fsys = umask base /\
  forall name,
    nodes base !! name = None ->
    nodes fsys !! name = None \/
    nodes fsys !! name = Some (Dir (create_mode dperm base)) \/
    exists data, nodes fsys !! name = Some (File (create_mode fperm base) data).

(** *** The errors the specification names *)

Definition AlreadyProvisionedError (path : string) : error :=
  errors_New ("Directory " +:+ path +:+ " already exists").

Definition SignerAlreadyProvisionedError (path : string) : error :=
  errors_New
    ("This MSP config already contains a directory " +:+ dquote +:+ path +:+ dquote).

Definition MissingKeyMaterialError (cause : error) (which path : string) : error :=
  errors_Wrapf cause ("failed to open issuer " +:+ which +:+ " key file: " +:+ path).

Definition cannot_open (name : string) (fsys : FileSystem) : Prop :=
  is_Some (snd (read_file name fsys)).

(** The error a run of [command] hands to [handleError] when [c] is the
    call it ends at: the error of the call; for a key file that could
    not be read, that error wrapped with the role and the name of the
    file; for an [os.Stat] that found something, the already-exists
    error of the command. *)
Definition reported (command : Command) (c : Call) : option error :=
  match c with
  | Call_GetVersionInfo => None
  | Call_Stat name None =>
      Some match command with
           | genIssuerKey => AlreadyProvisionedError name
           | _ => SignerAlreadyProvisionedError name
           end
  | Call_Stat _ (Some _) => None
  | Call_ReadFile name (Some cause) =>
      Some (MissingKeyMaterialError cause
              (if decide (name = issuer_secret_key_file) then "secret" else "public")
              name)
  | Call_ReadFile _ None => None
  | Call_GenerateIssuerKey err
  | Call_GenerateSignerConfig _ _ _ err
  | Call_Unmarshal _ err
  | Call_Mkdir _ _ err
  | Call_WriteFile _ _ _ err => err
  end.

(** The process ended with status 1 after printing the message of [e],
    and no directory was created nor file written meanwhile. *)
Definition refused (e : error) (w : World) (o : Outcome unit) : Prop :=
  exists w' seg,
    o = Exited 1 w' /\
    stdout w' = stdout w ++ [Error e] /\
    fs w' = fs w /\
    calls w' = calls w ++ seg /\
    forallb (fun c => negb (mutates c)) seg = true.

(** *** The sentences of the specification that the code does not meet,
    as they are worded *)



(** "Directories are created with owner read/write/execute only; files
    are created with owner read/write only." *)
Definition created_owner_only (w : World) (o : Outcome unit) : Prop :=
  forall name n,
    nodes (fs w) !! name = None ->
    nodes (fs (final o)) !! name = Some n ->
    owner_only (node_mode n).

(** "Every error is fatal to the current invocation; each workflow
    fails fast at the first error": no call follows one that did not
    pass. *)
Definition stops_at_first_error (w : World) (o : Outcome unit) : Prop :=
  forall pre c post,
    calls (final o) = calls w ++ pre ++ c :: post ->
    passed c = false ->
    post = [] /\ exit_status o <> 0.


End Vocabulary.

(** ** Scenarios

    Concrete collaborators and working directories on which the
    properties are exercised.  The public key is represented by the
    bytes of its fields. *)

Definition secret_bytes : list byte := [x13; x37].
Definition public_fields : list byte := [x02; x4f; x55].
Definition config_bytes : list byte := [x12; x01; x01].

(** A toy wire format: a tag byte, then the fields. *)
Definition encode (fields : list byte) : list byte := x0a :: fields.

Definition decode (buf : list byte) (pb : list byte) : list byte * option error :=
  match buf with
  | x0a :: fields => (fields, None)
  | _ => (pb, Some (ForeignError "proto: cannot parse invalid wire-format data"))
  end.

Definition public_bytes : list byte := encode public_fields.

Definition sample_ext : @Extern (list byte) :=
  {| GenerateIssuerKey_result := (secret_bytes, public_bytes, None);
     GenerateSignerConfig_result := fun _ _ _ => (config_bytes, None);
     Unmarshal_result := decode;
     Marshal_result := encode;
     IssuerPublicKey_empty := [];
     GetVersionInfo_result := "idemixgen: Version: 1.1.0" |}.

(** The same collaborators when key generation fails. *)
Definition failing_generator_ext : @Extern (list byte) :=
  {| GenerateIssuerKey_result :=
       ([], [], Some (ForeignError "Error getting PRNG: entropy source failed"));
     GenerateSignerConfig_result := fun _ _ _ => (config_bytes, None);
     Unmarshal_result := decode;
     Marshal_result := encode;
     IssuerPublicKey_empty := [];
     GetVersionInfo_result := "idemixgen: Version: 1.1.0" |}.

Definition signer_dir : string := "msp/signer".
Definition signer_file : string := "SignerConfig".

(** An empty working directory under the usual umask 022. *)
Definition empty_dir : FileSystem :=
  {| nodes := ∅; umask := octal 0 2 2;
     denied := nothing_denied; failing := nothing_failing |}.

Definition fresh_world : @World (list byte) :=
  {| fs := empty_dir; stdout := []; calls := [] |}.

(** The working directory after one [ca-keygen]. *)
Definition provisioned_world : @World (list byte) :=
  final (main sample_ext signer_dir signer_file genIssuerKey fresh_world).


(** The working directory after [ca-keygen] and [signerconfig]. *)
Definition signer_world : @World (list byte) :=
  final (main sample_ext signer_dir signer_file (genSignerConfig "org1" false)
           provisioned_world).



(** The same collaborators when the signer generator fails. *)
Definition failing_signer_ext : @Extern (list byte) :=
  {| GenerateIssuerKey_result := (secret_bytes, public_bytes, None);
     GenerateSignerConfig_result :=
       fun _ _ _ => ([], Some (ForeignError "cannot mint credential"));
     Unmarshal_result := decode;
     Marshal_result := encode;
     IssuerPublicKey_empty := [];
     GetVersionInfo_result := "idemixgen: Version: 1.1.0" |}.

(** A provisioned working directory whose issuer public key was
    truncated. *)
Definition garbled_world : @World (list byte) :=
  {| fs := snd (write_file "ca/IssuerPublicKey" [] (octal 6 4 0)
                  (fs provisioned_world));
     stdout := []; calls := [] |}.

(** A provisioned working directory whose public copy under the MSP
    root was replaced. *)
Definition republished_world : @World (list byte) :=
  {| fs := snd (write_file "msp/IssuerPublicKey" [x00] (octal 6 4 0)
                  (fs provisioned_world));
     stdout := []; calls := [] |}.

(** An issuer root with its two key files, beside a regular file that
    stands where the MSP root is looked up. *)
Definition obstructed_world : @World (list byte) :=
  {| fs := {| nodes :=
                <["msp" := File (octal 6 4 4) []]>
                  (<["ca/IssuerPublicKey" := File (octal 6 4 0) public_bytes]>
                     (<["ca/IssuerSecretKey" := File (octal 6 4 0) secret_bytes]>
                        {[ "ca" := Dir (octal 7 5 0) ]}));
              umask := octal 0 2 2;
              denied := nothing_denied; failing := nothing_failing |};
     stdout := []; calls := [] |}.



(** ** Properties of the file system *)

Section FileSystemFacts.

Implicit Types (fsys : FileSystem) (name : string).

Lemma mkdir_ok name perm fsys fsys' :
  mkdir name perm fsys = (None, fsys') ->
  lookup_parent name fsys = None /\
  nodes fsys !! name = None /\
  fsys' = set_nodes (insert name (Dir (create_mode perm fsys))) fsys.
Proof.
  unfold mkdir. destruct (lookup_parent name fsys); [discriminate |].
  destruct (nodes fsys !! name); [discriminate |].
  destruct (denied fsys name); [discriminate |].
  intros [= <-]. auto.
Qed.

Lemma mkdir_failed name perm fsys fsys' e :
  mkdir name perm fsys = (Some e, fsys') -> fsys' = fsys.
Proof.
  unfold mkdir. destruct (lookup_parent name fsys); [congruence |].
  destruct (nodes fsys !! name); [congruence |].
  destruct (denied fsys name); [congruence | discriminate].
Qed.

(** What a write leaves when the file could be opened: the file, with
    some prefix of the data, under the mode it had or was created with. *)
Lemma write_opened_shape name mode data fsys err fsys' :
  write_opened name mode data fsys = (err, fsys') ->
  exists written,
    fsys' = set_nodes (insert name (File mode written)) fsys /\
    (err = None -> written = data).
Proof.
  unfold write_opened. destruct (failing fsys name) as [[e n] |]; intros [= <- <-].
  - eexists. split; [reflexivity | discriminate].
  - eexists. split; [reflexivity | reflexivity].
Qed.

(** Every write either changes nothing, which is a failure, or leaves a
    file under the name, which was free or held a file of that mode. *)
Lemma write_file_shape name data perm fsys err fsys' :
  write_file name data perm fsys = (err, fsys') ->
  (fsys' = fsys /\ is_Some err) \/
  (lookup_parent name fsys = None /\
   exists mode written,
     fsys' = set_nodes (insert name (File mode written)) fsys /\
     (err = None -> written = data) /\
     (nodes fsys !! name = None -> mode = create_mode perm fsys) /\
     (forall n, nodes fsys !! name = Some n -> exists old, n = File mode old)).
Proof.
  unfold write_file. destruct (lookup_parent name fsys); [intros [= <- <-]; eauto |].
  destruct (nodes fsys !! name) as [[mode | mode old] |], (denied fsys name) as [e |];
    try (intros [= <- <-]; left; eauto; fail); intros Hopened; right;
    (split; [reflexivity |]);
    destruct (write_opened_shape _ _ _ _ _ _ Hopened) as (written & -> & Hfull).
  - exists mode, written. repeat split; [assumption | discriminate |].
    intros n [= <-]. eauto.
  - exists (create_mode perm fsys), written.
    repeat split; [assumption | discriminate].
Qed.

Lemma write_file_ok name data perm fsys fsys' :
  write_file name data perm fsys = (None, fsys') ->
  lookup_parent name fsys = None /\
  exists mode,
    fsys' = set_nodes (insert name (File mode data)) fsys /\
    (nodes fsys !! name = None -> mode = create_mode perm fsys) /\
    (forall n, nodes fsys !! name = Some n -> exists old, n = File mode old).
Proof.
  intros Hwrite.
  destruct (write_file_shape _ _ _ _ _ _ Hwrite)
    as [[_ [e He]] | (Hparent & mode & written & -> & Hfull & Hnew & Hold)];
    [discriminate |].
  split; [assumption |]. exists mode. rewrite (Hfull eq_refl). auto.
Qed.


Lemma read_file_absent name fsys :
  nodes fsys !! name = None -> cannot_open name fsys.
Proof.
  unfold cannot_open, read_file. intros ->.
  destruct (lookup_parent name fsys); simpl; eauto.
Qed.

(** A read that succeeded returned the contents of a file of that name. *)
Lemma read_file_returned name fsys data :
  read_file name fsys = (data, None) ->
  exists mode, nodes fsys !! name = Some (File mode data).
Proof.
  unfold read_file. destruct (lookup_parent name fsys); [discriminate |].
  destruct (nodes fsys !! name) as [[mode | mode old] |]; try discriminate.
  intros [= ->]. eauto.
Qed.

Lemma stat_exists name fsys n :
  lookup_parent name fsys = None ->
  nodes fsys !! name = Some n ->
  stat name fsys = None.
Proof. unfold stat. intros -> ->. reflexivity. Qed.


Lemma well_formed_lookup fsys name n :
  well_formed fsys -> nodes fsys !! name = Some n -> lookup_parent name fsys = None.
Proof. intros Hwf Hn. exact (Hwf name n Hn). Qed.

(** In a well-formed tree nothing lies below a name that is free. *)
Lemma well_formed_below fsys name d :
  well_formed fsys -> parent name = Some d -> nodes fsys !! d = None ->
  nodes fsys !! name = None.
Proof.
  intros Hwf Hp Hd. destruct (nodes fsys !! name) as [n |] eqn:Hn; [| reflexivity].
  pose proof (well_formed_lookup _ _ _ Hwf Hn) as Hl.
  unfold lookup_parent in Hl. rewrite Hp, Hd in Hl.
  destruct (decide (name = EmptyString)); discriminate.
Qed.

(** Well-formedness is kept by the two calls that change the tree. *)
Lemma lookup_parent_insert name n k fsys :
  (forall mode, nodes fsys !! name <> Some (Dir mode)) ->
  lookup_parent k fsys = None ->
  lookup_parent k (set_nodes (insert name n) fsys) = None.
Proof.
  intros Hname. unfold lookup_parent, set_nodes. cbn [nodes].
  destruct (decide (k = EmptyString)); [discriminate |].
  destruct (parent k) as [d |]; [| reflexivity].
  destruct (decide (name = d)) as [<- | Hne].
  - destruct (nodes fsys !! name) as [[mode | mode data] |] eqn:Hd;
      try discriminate.
    destruct (Hname mode eq_refl).
  - rewrite lookup_insert_ne by assumption. auto.
Qed.

Lemma insert_well_formed name n fsys :
  well_formed fsys ->
  lookup_parent name fsys = None ->
  (forall mode, nodes fsys !! name <> Some (Dir mode)) ->
  well_formed (set_nodes (insert name n) fsys).
Proof.
  intros Hwf Hparent Hname k v Hk. cbn [set_nodes nodes] in Hk.
  apply lookup_parent_insert; [assumption |].
  destruct (decide (name = k)) as [<- | Hne]; [assumption |].
  rewrite lookup_insert_ne in Hk by assumption. exact (Hwf k v Hk).
Qed.

Lemma mkdir_well_formed name perm fsys :
  well_formed fsys -> well_formed (snd (mkdir name perm fsys)).
Proof.
  intros Hwf. destruct (mkdir name perm fsys) as [[e |] fsys'] eqn:Hcall.
  - apply mkdir_failed in Hcall. subst fsys'. assumption.
  - apply mkdir_ok in Hcall. destruct Hcall as (Hparent & Hname & ->).
    apply insert_well_formed; [assumption .. |]. congruence.
Qed.

Lemma write_file_well_formed name data perm fsys :
  well_formed fsys -> well_formed (snd (write_file name data perm fsys)).
Proof.
  intros Hwf. destruct (write_file name data perm fsys) as [err fsys'] eqn:Hcall.
  destruct (write_file_shape _ _ _ _ _ _ Hcall)
    as [[-> _] | (Hparent & mode & written & -> & _ & _ & Hold)];
    [assumption |].
  apply insert_well_formed; [assumption .. |].
  intros dmode Hdir. destruct (Hold _ Hdir) as [old Hfile]. discriminate Hfile.
Qed.

Lemma stat_absent name fsys e :
  stat name fsys = Some e ->
  lookup_parent name fsys = None ->
  nodes fsys !! name = None ->
  e = PathError "stat" name ENOENT.
Proof.
  unfold stat. intros H Hparent Hname. rewrite Hparent, Hname in H. congruence.
Qed.

(** The permission bits of a created node are among the requested ones. *)
Lemma create_mode_land perm mask fsys :
  Z.land perm mask = 0 -> Z.land (create_mode perm fsys) mask = 0.
Proof.
  intros H. unfold create_mode. apply Z.bits_inj'. intros i Hi.
  rewrite Z.land_spec, Z.ldiff_spec, Z.bits_0.
  assert (Hb : Z.testbit (Z.land perm mask) i = false) by (rewrite H; apply Z.bits_0).
  rewrite Z.land_spec in Hb.
  destruct (Z.testbit perm i), (Z.testbit mask i), (Z.testbit (umask fsys) i);
    simpl in *; congruence.
Qed.

End FileSystemFacts.

(** ** Properties of the program *)

(** Symbolic execution: unfold the program and split on the result of
    the next call, in program order. *)
Ltac exec_call :=
  match goal with
  | |- context [stat ?n ?f] => is_var f; destruct (stat n f) eqn:?
  | |- context [mkdir ?n ?p ?f] =>
      is_var f; destruct (mkdir n p f) as [[?|] ?] eqn:?
  | |- context [write_file ?n ?d ?p ?f] =>
      is_var f; destruct (write_file n d p f) as [[?|] ?] eqn:?
  | |- context [read_file ?n ?f] =>
      is_var f; destruct (read_file n f) as [? [?|]] eqn:?
  | |- context [GenerateIssuerKey_result ?e] =>
      destruct (GenerateIssuerKey_result e) as [[? ?] [?|]] eqn:?
  | |- context [GenerateSignerConfig_result ?e ?a ?o ?k] =>
      destruct (GenerateSignerConfig_result e a o k) as [? [?|]] eqn:?
  | |- context [Unmarshal_result ?e ?b ?k] =>
      destruct (Unmarshal_result e b k) as [? [?|]] eqn:?
  end.

Ltac exec_simpl :=
  cbn [fs stdout calls fst snd final exit_status].

Ltac exec :=
  cbv [main readIssuerKey writeFile checkDirectoryNotExists printVersion handleError
       bind ret os_Exit fmt_Println os_Stat os_Mkdir ioutil_WriteFile ioutil_ReadFile
       idemixca_GenerateIssuerKey idemixca_GenerateSignerConfig proto_Unmarshal
       metadata_GetVersionInfo logged with_fs];
  exec_simpl;
  repeat (exec_call; exec_simpl).

(** Two of the file names of the program differ. *)
Ltac distinct_names :=
  let H := fresh in intros H; vm_compute in H; discriminate H.

(** Replace the calls by the results they were split into. *)
Ltac rewrite_calls :=
  repeat (match goal with
          | H : ?x = _ |- context [?x] => rewrite H
          end; cbn [fst snd]).

(** Split a log segment into its last call and what precedes it. *)
Ltac split_last :=
  lazymatch goal with
  | |- exists pre c e, ?seg = pre ++ [c] /\ _ =>
      let rec go acc l :=
        lazymatch l with
        | ?c :: [] => let pre := eval cbn [app] in acc in exists pre, c
        | ?x :: ?rest => go constr:(acc ++ [x]) rest
        end in
      lazymatch type of seg with
      | list ?T => go constr:(@nil T) seg
      end
  end.

(** The same for a log given with what preceded the run. *)
Ltac ends_with :=
  lazymatch goal with
  | |- exists pre c e, _ ++ ?seg = _ ++ pre ++ [c] /\ _ =>
      let rec go acc l :=
        lazymatch l with
        | ?c :: [] => let pre := eval cbn [app] in acc in exists pre, c
        | ?x :: ?rest => go constr:(acc ++ [x]) rest
        end in
      lazymatch type of seg with
      | list ?T => go constr:(@nil T) seg
      end
  end.

(** The log in the form [old ++ new]. *)
Ltac split_log :=
  repeat rewrite <- (app_assoc _ _ _); cbn [app].

Section Properties.

Context {IssuerPublicKey : Type}.
Context (ext : @Extern IssuerPublicKey).
Context (msp_IdemixConfigDirUser msp_IdemixConfigFileSigner : string).

#[local] Abbreviation World := (@World IssuerPublicKey).
#[local] Abbreviation run := (main ext msp_IdemixConfigDirUser msp_IdemixConfigFileSigner).
#[local] Abbreviation plan_of := (plan msp_IdemixConfigDirUser msp_IdemixConfigFileSigner).

(** *** The failure reporter *)

Lemma handleError_nil (w : World) : handleError None w = Returned tt w.
Proof. reflexivity. Qed.

Lemma handleError_error (e : error) (w : World) :
  handleError (Some e) w =
  Exited 1 {| fs := fs w; stdout := stdout w ++ [Error e]; calls := calls w |}.
Proof. reflexivity. Qed.

(** *** Every run, call by call

    The log of a run is an initial part of the plan of its command; the
    file system at the end is the one the logged calls produce; a run
    that returns made every step of the plan; a run that exits made its
    last call at the step that failed, printed the message of the error
    that step raised and set status 1. *)

Lemma run_trace (command : Command) (w : World) :
  exists seg,
    calls (final (run command w)) = calls w ++ seg /\
    fs (final (run command w)) = replay seg (fs w) /\
    faithful (fs w) seg /\
    map step_of seg `prefix_of` plan_of command /\
    forallb (requests (octal 7 7 0) (octal 6 4 0)) seg = true /\
    match run command w with
    | Returned _ w' =>
        forallb let_through seg = true /\
        map step_of seg = plan_of command /\
        stdout w' =
          stdout w ++ match command with
                      | version => [GetVersionInfo_result ext]
                      | _ => []
                      end
    | Exited code w' =>
        code = 1 /\
        exists pre c e,
          seg = pre ++ [c] /\
          forallb let_through pre = true /\
          raised_by c e /\
          stdout w' = stdout w ++ [Error e]
    end.
Proof.
  destruct w as [fsys out log].
  destruct command; exec; split_log;
    (eexists; split; [reflexivity |]);
    (split; [cbn [replay foldl apply_call]; rewrite_calls; reflexivity |]);
    (split; [cbn [faithful answers apply_call fs]; rewrite_calls; repeat split |]);
    (split; [eexists; reflexivity |]);
    (split; [reflexivity |]).
  all: try (split; [reflexivity |]; split_last; eexists;
            split; [reflexivity |]; split; [reflexivity |];
            split; [| reflexivity]; cbn [raised_by]; eauto 6).
  all: split; [reflexivity |]; split; [reflexivity |];
    cbn [stdout]; rewrite ?app_nil_r; reflexivity.
Qed.

(** In a run that returns, the only errors are those of the probes, and
    each says that nothing has the probed name. *)
Lemma returned_probes_absent (command : Command) (w w' : World) seg :
  run command w = Returned tt w' ->
  calls w' = calls w ++ seg ->
  Forall plain_absence seg.
Proof.
  destruct w as [fsys out log].
  destruct command; exec; try discriminate; intros [= <-] Hcalls;
    cbn [calls] in Hcalls; revert Hcalls; split_log; intros Hcalls;
    apply app_inv_head in Hcalls; subst seg;
    repeat (apply Forall_cons; split; [cbn [plain_absence] |]);
    try exact I; try (apply Forall_nil; exact I).
  all: change (filepath_Join [IdemixDirIssuer]) with IdemixDirIssuer in *.
  all: repeat match goal with
              | H : mkdir _ _ _ = (None, _) |- _ =>
                  apply mkdir_ok in H; destruct H as (? & ? & ->)
              end.
  all: cbn [set_nodes nodes] in *.
  all: repeat match goal with
              | H : context [<[_ := _]> _ !! _] |- _ =>
                  rewrite lookup_insert_ne in H by distinct_names
              end.
  all: f_equal; eapply stat_absent;
    [eassumption | first [eassumption | reflexivity] | eassumption].
Qed.

Lemma replay_last (pre : list (@Call IssuerPublicKey)) c :
  forall fsys, replay (pre ++ [c]) fsys = apply_call (replay pre fsys) c.
Proof.
  induction pre as [| c0 pre IH]; intros fsys; [reflexivity |].
  exact (IH (apply_call fsys c0)).
Qed.

Lemma faithful_last (pre : list (@Call IssuerPublicKey)) c :
  forall fsys, faithful fsys (pre ++ [c]) -> answers (replay pre fsys) c.
Proof.
  induction pre as [| c0 pre IH]; intros fsys.
  - intros [Hc _]. exact Hc.
  - intros [_ Hrest]. exact (IH _ Hrest).
Qed.

Lemma replay_well_formed (seg : list (@Call IssuerPublicKey)) :
  forall fsys, well_formed fsys -> well_formed (replay seg fsys).
Proof.
  induction seg as [| c seg IH]; intros fsys Hwf; [assumption |].
  apply (IH (apply_call fsys c)).
  destruct c; cbn [apply_call];
    auto using mkdir_well_formed, write_file_well_formed.
Qed.

(** Every run keeps the directory tree well formed. *)
Lemma run_well_formed (command : Command) (w : World) :
  well_formed (fs w) -> well_formed (fs (final (run command w))).
Proof.
  intros Hwf. destruct (run_trace command w) as (seg & _ & -> & _).
  apply replay_well_formed, Hwf.
Qed.

Lemma forallb_elem_of {A : Type} (f : A -> bool) (l : list A) :
  forallb f l = true <-> forall x, x ∈ l -> f x = true.
Proof.
  rewrite forallb_forall. split; intros H x Hx; apply H, list_elem_of_In, Hx.
Qed.

(** A call the code goes on from although it did not pass is an
    [os.Stat] whose error is not the answer that nothing has the name. *)
Lemma let_through_not_passed (c : @Call IssuerPublicKey) :
  let_through c = true -> passed c = false ->
  exists name e, c = Call_Stat name (Some e) /\ is_not_exist (Some e) = false.
Proof.
  destruct c as [| | | | name [e |] | | |]; cbn [let_through passed negb is_nil];
    try congruence.
  intros _ Hfailed. eauto.
Qed.

(** C7 (amended). Every error handed to the reporter is fatal to the
    invocation.  The reporter prints the message of the error it is
    given and ends the process with status 1.  In every run of every command the calls
    made are an initial part of the plan, each made once and in order,
    and the file system at the end is exactly what those calls produced:
    nothing is retried, undone or cleaned up.  A run that exits does so
    with status 1 at the last call it made, after printing the message
    of the error that call raised, and nothing more.  Before that call
    the run met no error but those of [os.Stat]: the code goes on from
    every error of [os.Stat], whichever it is, and an [os.Stat] that did
    not answer that nothing has the name is the one kind of call that
    did not pass and yet is followed by another.  A run that returns
    (status 0) has made every step of the plan and every call of it
    passed. *)
Theorem reported_errors_are_fatal (command : Command) (w : World) :
  (forall (e : error) (w0 : World),
     handleError (Some e) w0 =
     Exited 1 {| fs := fs w0; stdout := stdout w0 ++ [Error e]; calls := calls w0 |}) /\
  exists seg,
    calls (final (run command w)) = calls w ++ seg /\
    fs (final (run command w)) = replay seg (fs w) /\
    faithful (fs w) seg /\
    map step_of seg `prefix_of` plan_of command /\
    match run command w with
    | Returned _ w' =>
        forallb passed seg = true /\
        map step_of seg = plan_of command /\
        exit_status (run command w) = 0
    | Exited code w' =>
        code = 1 /\
        exists pre c e,
          seg = pre ++ [c] /\
          forallb let_through pre = true /\
          (forall c0, c0 ∈ pre -> passed c0 = false ->
             exists name e0,
               c0 = Call_Stat name (Some e0) /\ is_not_exist (Some e0) = false) /\
          passed c = false /\
          raised_by c e /\
          stdout w' = stdout w ++ [Error e]
    end.
Proof.
  split; [exact handleError_error |].
  destruct (run_trace command w) as (seg & Hcalls & Hfs & Hlog & Hplan & _ & Hout).
  exists seg. repeat (split; [assumption |]).
  destruct (run command w) as [[] w' | code w'] eqn:Hrun.
  - destruct Hout as (Hthrough & Hall & _).
    split; [| auto].
    pose proof (returned_probes_absent command w w' seg Hrun Hcalls) as Habsent.
    apply forallb_elem_of. intros c Hc.
    pose proof (proj1 (Forall_forall _ _) Habsent c Hc) as Hplain.
    pose proof (proj1 (forallb_elem_of _ _) Hthrough c Hc) as Hlet.
    destruct c; cbn [passed let_through plain_absence] in *; try assumption.
    rewrite Hplain. reflexivity.
  - destruct Hout as (-> & pre & c & e & -> & Hpre & Hc & Hprint).
    split; [reflexivity |]. exists pre, c, e.
    split; [reflexivity |]. split; [assumption |].
    split.
    { intros c0 Hc0 Hfailed. apply let_through_not_passed; [| assumption].
      exact (proj1 (forallb_elem_of _ _) Hpre c0 Hc0). }
    split; [| split; assumption].
    destruct c; cbn [raised_by passed] in Hc |- *;
      try (rewrite Hc; reflexivity); try contradiction.
    + destruct Hc as (-> & _). reflexivity.
    + destruct Hc as (? & ? & -> & _). reflexivity.
Qed.

(** C8. [version] touches nothing: whatever the working directory
    holds, the run makes no call to the file system, prints the version
    string obtained from [metadata.GetVersionInfo], leaves the file
    system as it was and returns, which is exit status 0. *)
Theorem version_is_pure (w : World) :
  exists w',
    run version w = Returned tt w' /\
    exit_status (run version w) = 0 /\
    fs w' = fs w /\
    stdout w' = stdout w ++ [GetVersionInfo_result ext] /\
    calls w' = calls w ++ [Call_GetVersionInfo].
Proof. eexists. repeat split. Qed.

(** *** The existence probe *)



(** *** Reconstruction of the issuer key *)

Lemma readIssuerKey_eq (w : World) :
  readIssuerKey ext w =
  match read_file issuer_secret_key_file (fs w) with
  | (_, Some e) =>
      Exited 1
        {| fs := fs w;
           stdout := stdout w ++
             [Error (MissingKeyMaterialError e "secret" issuer_secret_key_file)];
           calls := calls w ++ [Call_ReadFile issuer_secret_key_file (Some e)] |}
  | (isk, None) =>
      match read_file issuer_public_key_file (fs w) with
      | (_, Some e) =>
          Exited 1
            {| fs := fs w;
               stdout := stdout w ++
                 [Error (MissingKeyMaterialError e "public" issuer_public_key_file)];
               calls := calls w ++
                 [ Call_ReadFile issuer_secret_key_file None;
                   Call_ReadFile issuer_public_key_file (Some e) ] |}
      | (ipkBytes, None) =>
          let r := Unmarshal_result ext ipkBytes (IssuerPublicKey_empty ext) in
          let w' :=
            {| fs := fs w;
               stdout := stdout w ++
                 match snd r with Some e => [Error e] | None => [] end;
               calls := calls w ++
                 [ Call_ReadFile issuer_secret_key_file None;
                   Call_ReadFile issuer_public_key_file None;
                   Call_Unmarshal ipkBytes (snd r) ] |} in
          match snd r with
          | Some _ => Exited 1 w'
          | None => Returned (MkIssuerKey isk (fst r)) w'
          end
      end
  end.
Proof.
  destruct w as [fsys out log].
  unfold issuer_secret_key_file, issuer_public_key_file.
  exec; split_log; rewrite ?app_nil_r; reflexivity.
Qed.



(** Without an issuer root the secret-key file cannot be opened. *)
Lemma no_issuer_root_cannot_open (fsys : FileSystem) :
  nodes fsys !! IdemixDirIssuer = None ->
  cannot_open issuer_secret_key_file fsys.
Proof.
  intros Hroot.
  assert (Hparent : lookup_parent issuer_secret_key_file fsys = Some ENOENT).
  { unfold lookup_parent.
    destruct (decide (issuer_secret_key_file = EmptyString)); [reflexivity |].
    change (parent issuer_secret_key_file) with (Some IdemixDirIssuer).
    cbv beta iota. rewrite Hroot. reflexivity. }
  unfold cannot_open, read_file. rewrite Hparent. cbn [snd]. eauto.
Qed.

(** C6. When the secret-key file or the public-key file of the issuer
    cannot be opened, and in particular when there is no issuer root, as
    before any [ca-keygen], [signerconfig] ends with status 1 after
    printing the failed-to-open message for the first of the two files
    that failed; the only calls it made are the reads, so no signer
    config was generated, no directory created and no file written. *)
Theorem signerconfig_missing_key_material
    (genCredOU : string) (genCredIsAdmin : bool) (w : World) :
  cannot_open issuer_secret_key_file (fs w) \/
  cannot_open issuer_public_key_file (fs w) \/
  nodes (fs w) !! IdemixDirIssuer = None ->
  exists w' cause which path seg,
    run (genSignerConfig genCredOU genCredIsAdmin) w = Exited 1 w' /\
    stdout w' = stdout w ++ [Error (MissingKeyMaterialError cause which path)] /\
    ((which = "secret" /\ path = issuer_secret_key_file /\
      snd (read_file path (fs w)) = Some cause) \/
     (which = "public" /\ path = issuer_public_key_file /\
      snd (read_file path (fs w)) = Some cause)) /\
    fs w' = fs w /\
    calls w' = calls w ++ seg /\
    forallb is_read seg = true.
Proof.
  intros Hmissing.
  assert (Hopen : cannot_open issuer_secret_key_file (fs w) \/
                  cannot_open issuer_public_key_file (fs w)).
  { destruct Hmissing as [H | [H | H]]; auto using no_issuer_root_cannot_open. }
  clear Hmissing. cbv [main bind]. rewrite readIssuerKey_eq.
  unfold cannot_open in Hopen.
  destruct (read_file issuer_secret_key_file (fs w)) as [isk [e |]] eqn:Hsk.
  - eexists _, e, "secret", issuer_secret_key_file, _. split; [reflexivity |].
    cbn [stdout fs calls]. split; [reflexivity |].
    split; [left; rewrite Hsk; auto |].
    repeat split.
  - destruct (read_file issuer_public_key_file (fs w)) as [ipkBytes [e |]] eqn:Hpk.
    + eexists _, e, "public", issuer_public_key_file, _. split; [reflexivity |].
      cbn [stdout fs calls]. split; [reflexivity |].
      split; [right; rewrite Hpk; auto |].
      repeat split.
    + destruct Hopen as [[? H] | [? H]]; discriminate.
Qed.

(** *** ca-keygen *)



(** What a run of [ca-keygen] that returns has done. *)
Lemma ca_keygen_success (w w' : World) :
  run genIssuerKey w = Returned tt w' ->
  exists isk ipk m1 m2 m3,
    GenerateIssuerKey_result ext = (isk, ipk, None) /\
    nodes (fs w) !! IdemixDirIssuer = None /\
    nodes (fs w) !! msp_IdemixConfigDirMsp = None /\
    umask (fs w') = umask (fs w) /\
    stdout w' = stdout w /\
    nodes (fs w') =
      <[msp_public_key_file := File m3 ipk]>
        (<[issuer_public_key_file := File m2 ipk]>
           (<[issuer_secret_key_file := File m1 isk]>
              (<[msp_IdemixConfigDirMsp := Dir (create_mode (octal 7 7 0) (fs w))]>
                 (<[IdemixDirIssuer := Dir (create_mode (octal 7 7 0) (fs w))]>
                    (nodes (fs w)))))) /\
    (nodes (fs w) !! issuer_secret_key_file = None ->
     nodes (fs w) !! issuer_public_key_file = None ->
     nodes (fs w) !! msp_public_key_file = None ->
     m1 = create_mode (octal 6 4 0) (fs w) /\
     m2 = create_mode (octal 6 4 0) (fs w) /\
     m3 = create_mode (octal 6 4 0) (fs w)).
Proof.
  destruct w as [fsys out log].
  exec; try discriminate. intros [= <-]. cbn [fs stdout].
  repeat match goal with
         | H : mkdir _ _ _ = (None, _) |- _ =>
             apply mkdir_ok in H; destruct H as (_ & ? & ->)
         | H : write_file _ _ _ _ = (None, _) |- _ =>
             apply write_file_ok in H; destruct H as (_ & ? & -> & ? & _)
         end.
  cbv [set_nodes create_mode] in *; cbn [nodes umask] in *.
  change (filepath_Join [IdemixDirIssuer; IdemixConfigIssuerSecretKey])
    with issuer_secret_key_file in *.
  change (filepath_Join [IdemixDirIssuer; msp_IdemixConfigFileIssuerPublicKey])
    with issuer_public_key_file in *.
  change (filepath_Join [msp_IdemixConfigDirMsp; msp_IdemixConfigFileIssuerPublicKey])
    with msp_public_key_file in *.
  repeat match goal with
         | H : context [<[_ := _]> _ !! _] |- _ =>
             rewrite lookup_insert_ne in H by distinct_names
         end.
  exists l, l0, x1, x0, x. repeat (split; [assumption || reflexivity |]). auto.
Qed.

(** *** signerconfig *)


(** *** Permissions of what is created *)

Lemma grown_from_refl dperm fperm base : grown_from dperm fperm base base.
Proof. split; auto. Qed.

Lemma apply_call_grown dperm fperm base fsys (c : @Call IssuerPublicKey) :
  grown_from dperm fperm base fsys ->
  requests dperm fperm c = true ->
  grown_from dperm fperm base (apply_call fsys c).
Proof.
  intros [Hmask Hnodes] Hreq.
  destruct c as [| | | | | name perm err | name data perm err |];
    cbn [apply_call]; try (split; assumption).
  - cbn [requests] in Hreq. apply Z.eqb_eq in Hreq. subst perm.
    destruct (mkdir name dperm fsys) as [[e |] fsys'] eqn:Hcall; cbn [snd].
    { rewrite (mkdir_failed _ _ _ _ _ Hcall). split; assumption. }
    apply mkdir_ok in Hcall as (_ & Hname & ->).
    split; [exact Hmask |]. intros name' Hfree. cbn [set_nodes nodes].
    destruct (decide (name = name')) as [<- | Hne].
    + rewrite lookup_insert_eq. right. left.
      unfold create_mode. rewrite Hmask. reflexivity.
    + rewrite lookup_insert_ne by assumption. auto.
  - cbn [requests] in Hreq. apply Z.eqb_eq in Hreq. subst perm.
    destruct (write_file name data fperm fsys) as [e fsys'] eqn:Hcall; cbn [snd].
    destruct (write_file_shape _ _ _ _ _ _ Hcall)
      as [[-> _] | (_ & mode & written & -> & _ & Hnew & Hold)];
      [split; assumption |].
    split; [exact Hmask |]. intros name' Hfree. cbn [set_nodes nodes].
    destruct (decide (name = name')) as [<- | Hne].
    + rewrite lookup_insert_eq. right. right.
      destruct (nodes fsys !! name) as [n |] eqn:Hname.
      * destruct (Hold n eq_refl) as [old ->].
        destruct (Hnodes name Hfree) as [H | [H | [data' H]]];
          rewrite Hname in H; try discriminate.
        injection H as -> _. eauto.
      * rewrite (Hnew eq_refl). unfold create_mode. rewrite Hmask. eauto.
    + rewrite lookup_insert_ne by assumption. auto.
Qed.

Lemma replay_grown dperm fperm base (seg : list (@Call IssuerPublicKey)) :
  forall fsys,
    grown_from dperm fperm base fsys ->
    forallb (requests dperm fperm) seg = true ->
    grown_from dperm fperm base (replay seg fsys).
Proof.
  induction seg as [| c seg IH]; intros fsys Hgrown Hreq.
  - exact Hgrown.
  - cbn [forallb] in Hreq. apply andb_prop in Hreq as [Hc Hseg].
    unfold replay. cbn [foldl]. apply IH; [| exact Hseg].
    apply apply_call_grown; assumption.
Qed.

(** C3 (amended). Every [os.Mkdir] of every workflow requests mode 0770
    and every [ioutil.WriteFile] requests mode 0640.  A directory that a
    run created therefore has the bits of 0770 that the umask leaves, a
    file the bits of 0640 that the umask leaves: others never get
    access, the group does unless the umask takes it away. *)
Theorem created_modes (command : Command) (w : World) :
  (exists seg,
     calls (final (run command w)) = calls w ++ seg /\
     forallb (requests (octal 7 7 0) (octal 6 4 0)) seg = true) /\
  forall name n,
    nodes (fs w) !! name = None ->
    nodes (fs (final (run command w))) !! name = Some n ->
    (n = Dir (create_mode (octal 7 7 0) (fs w)) \/
     exists data, n = File (create_mode (octal 6 4 0) (fs w)) data) /\
    closed_to_others (node_mode n).
Proof.
  destruct (run_trace command w) as (seg & Hcalls & Hfs & _ & _ & Hreq & _).
  split; [eauto |]. intros name n Hfree Hn.
  pose proof (replay_grown _ _ _ seg _ (grown_from_refl _ _ (fs w)) Hreq) as [_ Hgrown].
  rewrite <- Hfs in Hgrown.
  destruct (Hgrown name Hfree) as [H | [H | [data H]]];
    rewrite Hn in H; [discriminate | |].
  - assert (n = Dir (create_mode (octal 7 7 0) (fs w))) as -> by congruence.
    split; [auto |]. apply create_mode_land. reflexivity.
  - assert (n = File (create_mode (octal 6 4 0) (fs w)) data) as -> by congruence.
    split; [eauto |]. apply create_mode_land. reflexivity.
Qed.

(** *** The files of a provisioning run *)

(** C5. A run of [ca-keygen] that returns started with neither root
    and created exactly three files: the secret key under the issuer
    root and the serialized public key under the issuer root and under
    the MSP root, the last two with the same bytes.  The file system at
    the end is the initial one with the two directories and the three
    files added. *)
Theorem ca_keygen_creates_three_files (w w' : World) :
  well_formed (fs w) ->
  run genIssuerKey w = Returned tt w' ->
  let d := create_mode (octal 7 7 0) (fs w) in
  let m := create_mode (octal 6 4 0) (fs w) in
  exists isk ipk,
    fst (GenerateIssuerKey_result ext) = (isk, ipk) /\
    nodes (fs w) !! IdemixDirIssuer = None /\
    nodes (fs w) !! msp_IdemixConfigDirMsp = None /\
    nodes (fs w') =
      <[msp_public_key_file := File m ipk]>
        (<[issuer_public_key_file := File m ipk]>
           (<[issuer_secret_key_file := File m isk]>
              (<[msp_IdemixConfigDirMsp := Dir d]>
                 (<[IdemixDirIssuer := Dir d]> (nodes (fs w)))))) /\
    (forall name,
       nodes (fs w) !! name = None /\ is_file (nodes (fs w') !! name) = true <->
       name ∈ [issuer_secret_key_file; issuer_public_key_file; msp_public_key_file]) /\
    nodes (fs w') !! issuer_secret_key_file = Some (File m isk) /\
    nodes (fs w') !! issuer_public_key_file = Some (File m ipk) /\
    nodes (fs w') !! msp_public_key_file = Some (File m ipk).
Proof.
  intros Hwf Hrun d m.
  destruct (ca_keygen_success w w' Hrun)
    as (isk & ipk & m1 & m2 & m3 & Hgen & Hca & Hmsp & _ & _ & Hnodes & Hmodes).
  assert (Hsk : nodes (fs w) !! issuer_secret_key_file = None)
    by (apply (well_formed_below _ issuer_secret_key_file IdemixDirIssuer
                 Hwf eq_refl Hca)).
  assert (Hpk : nodes (fs w) !! issuer_public_key_file = None)
    by (apply (well_formed_below _ issuer_public_key_file IdemixDirIssuer
                 Hwf eq_refl Hca)).
  assert (Hmpk : nodes (fs w) !! msp_public_key_file = None)
    by (apply (well_formed_below _ msp_public_key_file msp_IdemixConfigDirMsp
                 Hwf eq_refl Hmsp)).
  destruct (Hmodes Hsk Hpk Hmpk) as (-> & -> & ->). fold m d in Hnodes.
  exists isk, ipk. rewrite Hgen, Hnodes.
  split; [reflexivity |]. do 3 (split; [assumption || reflexivity |]).
  split; [| split; [| split]].
  - intros name. rewrite !elem_of_cons, elem_of_nil.
    destruct (decide (name = msp_public_key_file)) as [-> | N1].
    { rewrite lookup_insert_eq. tauto. }
    rewrite lookup_insert_ne by auto.
    destruct (decide (name = issuer_public_key_file)) as [-> | N2].
    { rewrite lookup_insert_eq. tauto. }
    rewrite lookup_insert_ne by auto.
    destruct (decide (name = issuer_secret_key_file)) as [-> | N3].
    { rewrite lookup_insert_eq. tauto. }
    rewrite lookup_insert_ne by auto.
    destruct (decide (name = msp_IdemixConfigDirMsp)) as [-> | N4].
    { rewrite lookup_insert_eq. cbn [is_file]. intuition discriminate. }
    rewrite lookup_insert_ne by auto.
    destruct (decide (name = IdemixDirIssuer)) as [-> | N5].
    { rewrite lookup_insert_eq. cbn [is_file]. intuition discriminate. }
    rewrite lookup_insert_ne by auto.
    split; [| tauto]. intros [-> H]. discriminate H.
  - rewrite !lookup_insert_ne by distinct_names. apply lookup_insert_eq.
  - rewrite lookup_insert_ne by distinct_names. apply lookup_insert_eq.
  - apply lookup_insert_eq.
Qed.

End Properties.


(** C4. Round trip.  [first] stands for the collaborators of the run
    of [ca-keygen], [reader] for those of the later reconstruction, which
    has nothing of that run but the files it left.  When [readIssuerKey]
    returns, the secret component of its key is the byte string the
    generator of the first run produced and the public component is what
    [proto.Unmarshal] makes of the public bytes that generator produced;
    it serializes to those bytes, [proto.Marshal] being taken to give
    back the bytes that were decoded.  Otherwise [readIssuerKey] ends
    the process with status 1: one of the two files could not be read or
    the public bytes could not be decoded. *)
Theorem issuer_key_round_trip {IssuerPublicKey : Type}
    (first reader : @Extern IssuerPublicKey) (dirUser fileSigner : string)
    (w w1 w2 : @World IssuerPublicKey) (isk ipk : list byte) :
  main first dirUser fileSigner genIssuerKey w = Returned tt w1 ->
  fst (GenerateIssuerKey_result first) = (isk, ipk) ->
  fs w2 = fs w1 ->
  let r := Unmarshal_result reader ipk (IssuerPublicKey_empty reader) in
  Marshal_result reader (fst r) = ipk ->
  match readIssuerKey reader w2 with
  | Returned key w3 =>
      fs w3 = fs w2 /\
      stdout w3 = stdout w2 /\
      ISk key = isk /\
      IPk key = fst r /\
      snd r = None /\
      Marshal_result reader (IPk key) = ipk
  | Exited code w3 =>
      code = 1 /\
      (cannot_open issuer_secret_key_file (fs w2) \/
       cannot_open issuer_public_key_file (fs w2) \/
       is_Some (snd r))
  end.
Proof.
  intros Hrun Hgen Hfs r Hcodec.
  destruct (ca_keygen_success first dirUser fileSigner w w1 Hrun)
    as (isk' & ipk' & m1 & m2 & m3 & Hgen' & _ & _ & _ & _ & Hnodes & _).
  rewrite Hgen' in Hgen. cbn [fst] in Hgen. injection Hgen as -> ->.
  assert (Hsk : nodes (fs w2) !! issuer_secret_key_file = Some (File m1 isk)).
  { rewrite Hfs, Hnodes. rewrite !lookup_insert_ne by distinct_names.
    apply lookup_insert_eq. }
  assert (Hpk : nodes (fs w2) !! issuer_public_key_file = Some (File m2 ipk)).
  { rewrite Hfs, Hnodes. rewrite lookup_insert_ne by distinct_names.
    apply lookup_insert_eq. }
  rewrite readIssuerKey_eq. unfold cannot_open.
  destruct (read_file issuer_secret_key_file (fs w2)) as [secret [e |]] eqn:Hread1;
    cbn [snd]; [split; [reflexivity | eauto] |].
  destruct (read_file issuer_public_key_file (fs w2)) as [public [e |]] eqn:Hread2;
    cbn [snd]; [split; [reflexivity | eauto] |].
  apply read_file_returned in Hread1 as [mode1 Hread1].
  apply read_file_returned in Hread2 as [mode2 Hread2].
  rewrite Hsk in Hread1. rewrite Hpk in Hread2.
  injection Hread1 as _ <-. injection Hread2 as _ <-.
  cbv zeta. fold r. destruct (snd r) as [e |] eqn:Hdecode.
  - split; [reflexivity | eauto].
  - cbn [fs stdout ISk IPk]. rewrite app_nil_r. auto 10.
Qed.

(** ** The properties on the scenarios *)

Ltac by_evaluation := apply (bool_decide_unpack _); vm_compute; exact I.





(** The modes of the issuer root and of the secret key under umask 022. *)
Lemma created_modes_witness :
  nodes (fs provisioned_world) !! IdemixDirIssuer = Some (Dir (octal 7 5 0)) /\
  closed_to_others (octal 7 5 0) /\
  nodes (fs provisioned_world) !! issuer_secret_key_file =
    Some (File (octal 6 4 0) secret_bytes) /\
  closed_to_others (octal 6 4 0).
Proof.
  pose proof (proj2 (created_modes sample_ext signer_dir signer_file genIssuerKey
                       fresh_world)) as Hcreated.
  split; [vm_compute; reflexivity |]. split.
  - apply (Hcreated IdemixDirIssuer (Dir (octal 7 5 0))); vm_compute; reflexivity.
  - split; [vm_compute; reflexivity |].
    apply (Hcreated issuer_secret_key_file (File (octal 6 4 0) secret_bytes));
      vm_compute; reflexivity.
Defined.

(** C3, as worded, fails under the usual umask: [ca-keygen] creates
    the issuer root with mode 0750 and the secret key with mode 0640,
    and both let the group in. *)
Lemma created_directory_group_access :
  nodes (fs fresh_world) !! IdemixDirIssuer = None /\
  nodes (fs provisioned_world) !! IdemixDirIssuer = Some (Dir (octal 7 5 0)) /\
  Z.land (octal 7 5 0) (octal 0 7 7) = octal 0 5 0 /\
  nodes (fs provisioned_world) !! issuer_secret_key_file =
    Some (File (octal 6 4 0) secret_bytes) /\
  Z.land (octal 6 4 0) (octal 0 7 7) = octal 0 4 0 /\
  ~ created_owner_only fresh_world
      (main sample_ext signer_dir signer_file genIssuerKey fresh_world).
Proof.
  do 5 (split; [vm_compute; reflexivity |]).
  intros H.
  specialize (H IdemixDirIssuer (Dir (octal 7 5 0))).
  vm_compute in H. specialize (H eq_refl eq_refl). discriminate H.
Qed.

(** Reconstruction after [ca-keygen] in an empty working directory, by
    a process whose own generator would fail. *)
Lemma issuer_key_round_trip_witness :
  exists w3,
    readIssuerKey failing_generator_ext provisioned_world =
      Returned (MkIssuerKey secret_bytes public_fields) w3 /\
    Marshal_result failing_generator_ext public_fields = public_bytes.
Proof.
  pose proof (issuer_key_round_trip sample_ext failing_generator_ext
                signer_dir signer_file fresh_world provisioned_world
                provisioned_world secret_bytes public_bytes) as Hround.
  destruct (readIssuerKey failing_generator_ext provisioned_world)
    as [[isk ipk] w3 | code w3] eqn:Hread.
  - destruct Hround as (_ & _ & Hisk & Hipk & _ & Hbytes).
    + vm_compute. reflexivity.
    + reflexivity.
    + reflexivity.
    + reflexivity.
    + cbn [ISk IPk] in Hisk, Hipk. subst isk ipk. exists w3.
      split; [reflexivity | reflexivity].
  - vm_compute in Hread. discriminate Hread.
Defined.

(** [signerconfig] for a signer directory under a name that a regular
    file holds: [os.Stat] fails because a component of the path is not a
    directory, the probe takes the failure for absence, and the run goes
    on to [os.Mkdir], which fails for the same reason.  Only the second
    error is printed; the run went past the first. *)
Lemma stat_error_not_fatal :
  let o := main sample_ext signer_dir signer_file (genSignerConfig "org1" false)
             obstructed_world in
  well_formed (fs obstructed_world) /\
  stat signer_dir (fs obstructed_world) =
    Some (PathError "stat" signer_dir ENOTDIR) /\
  calls (final o) =
    [ Call_ReadFile issuer_secret_key_file None;
      Call_ReadFile issuer_public_key_file None;
      Call_Unmarshal public_bytes None;
      Call_GenerateSignerConfig false "org1"
        (MkIssuerKey secret_bytes public_fields) None;
      Call_Stat signer_dir (Some (PathError "stat" signer_dir ENOTDIR));
      Call_Mkdir signer_dir (octal 7 7 0)
        (Some (PathError "mkdir" signer_dir ENOTDIR)) ] /\
  stdout (final o) = [Error (PathError "mkdir" signer_dir ENOTDIR)] /\
  ~ stops_at_first_error obstructed_world o.
Proof.
  intros o. split; [by_evaluation |].
  do 3 (split; [vm_compute; reflexivity |]).
  intros Hstops.
  destruct (Hstops
              [ Call_ReadFile issuer_secret_key_file None;
                Call_ReadFile issuer_public_key_file None;
                Call_Unmarshal public_bytes None;
                Call_GenerateSignerConfig false "org1"
                  (MkIssuerKey secret_bytes public_fields) None ]
              (Call_Stat signer_dir (Some (PathError "stat" signer_dir ENOTDIR)))
              [ Call_Mkdir signer_dir (octal 7 7 0)
                  (Some (PathError "mkdir" signer_dir ENOTDIR)) ])
    as [Hlast _].
  - vm_compute. reflexivity.
  - reflexivity.
  - discriminate Hlast.
Qed.

(** The files of [ca-keygen] in an empty working directory. *)
Lemma ca_keygen_creates_three_files_witness :
  nodes (fs provisioned_world) !! issuer_public_key_file =
    Some (File (octal 6 4 0) public_bytes) /\
  nodes (fs provisioned_world) !! msp_public_key_file =
    Some (File (octal 6 4 0) public_bytes) /\
  forall name,
    is_file (nodes (fs provisioned_world) !! name) = true <->
    name ∈ [issuer_secret_key_file; issuer_public_key_file; msp_public_key_file].
Proof.
  destruct (ca_keygen_creates_three_files sample_ext signer_dir signer_file
              fresh_world provisioned_world)
    as (isk & ipk & Hgen & _ & _ & _ & Hthree & _ & Hpk & Hmpk).
  - by_evaluation.
  - vm_compute. reflexivity.
  - injection Hgen as <- <-. split; [exact Hpk |]. split; [exact Hmpk |].
    intros name. rewrite <- Hthree. split; [| tauto].
    intros Hfile. split; [reflexivity | exact Hfile].
Defined.

(** [signerconfig] in an empty working directory. *)
Lemma signerconfig_missing_key_material_witness :
  nodes (fs fresh_world) !! IdemixDirIssuer = None /\
  exists w' cause,
    main sample_ext signer_dir signer_file (genSignerConfig "org1" true) fresh_world
      = Exited 1 w' /\
    stdout w' =
      stdout fresh_world ++
        [Error (MissingKeyMaterialError cause "secret" issuer_secret_key_file)] /\
    fs w' = fs fresh_world.
Proof.
  split; [reflexivity |].
  destruct (signerconfig_missing_key_material sample_ext signer_dir signer_file
              "org1" true fresh_world)
    as (w' & cause & which & path & seg & Hrun & Hout & Hwhich & Hfs & _).
  - right. right. reflexivity.
  - exists w', cause. split; [exact Hrun |]. split; [| exact Hfs].
    destruct Hwhich as [(-> & -> & _) | (-> & -> & _)]; [exact Hout |].
    vm_compute in Hrun. injection Hrun as <-.
    cbn in Hout. injection Hout as Hmessage. discriminate Hmessage.
Defined.



(** ** Further properties: names *)

Section PathFacts.

Implicit Types (fsys : FileSystem) (name : string).

(** The directory part of a joined name. *)
Lemma parent_append (dir rest : string) :
  parent (dir +:+ "/" +:+ rest) =
  match parent rest with
  | Some d => Some (dir +:+ "/" +:+ d)
  | None => Some dir
  end.
Proof.
  induction dir as [| c dir IH].
  - change (EmptyString +:+ "/" +:+ rest) with (String (Ascii.ascii_of_nat 47) rest).
    cbn [parent]. destruct (parent rest); reflexivity.
  - change (String c dir +:+ "/" +:+ rest) with (String c (dir +:+ "/" +:+ rest)).
    cbn [parent]. rewrite IH. destruct (parent rest); reflexivity.
Qed.

Lemma parent_shorter (name d : string) :
  parent name = Some d -> (String.length d < String.length name)%nat.
Proof.
  revert d. induction name as [| c name IH]; intros d; [discriminate |].
  cbn [parent]. destruct (parent name) as [d' |].
  - intros [= <-]. specialize (IH d' eq_refl). cbn. lia.
  - destruct (Ascii.eqb c (Ascii.ascii_of_nat 47)); [| discriminate].
    intros [= <-]. cbn. lia.
Qed.

Lemma filepath_Join_pair (dir file : string) :
  dir <> EmptyString -> file <> EmptyString ->
  filepath_Join [dir; file] = dir +:+ "/" +:+ file.
Proof.
  intros Hdir Hfile. cbn [filepath_Join].
  destruct (decide (dir = EmptyString)); [contradiction |].
  destruct (decide (file = EmptyString)); [contradiction |].
  destruct file; [contradiction | reflexivity].
Qed.

(** In a well-formed tree a name below [dir] is taken only if [dir] is. *)
Lemma well_formed_ancestor fsys (dir : string) :
  well_formed fsys ->
  forall (k : nat) (rest : string),
    (String.length rest < k)%nat ->
    is_Some (nodes fsys !! (dir +:+ "/" +:+ rest)) ->
    is_Some (nodes fsys !! dir).
Proof.
  intros Hwf. induction k as [| k IH]; intros rest Hk [n Hn]; [lia |].
  pose proof (well_formed_lookup _ _ _ Hwf Hn) as Hparent.
  unfold lookup_parent in Hparent. rewrite parent_append in Hparent.
  destruct (decide (dir +:+ "/" +:+ rest = EmptyString)); [discriminate |].
  destruct (parent rest) as [d |] eqn:Hd.
  - apply (IH d); [apply parent_shorter in Hd; lia |].
    destruct (nodes fsys !! (dir +:+ "/" +:+ d)); [eauto | discriminate].
  - destruct (nodes fsys !! dir); [eauto | discriminate].
Qed.

(** The file that [signerconfig] writes is new when its directory is. *)
Lemma joined_name_free fsys (dir file : string) :
  well_formed fsys ->
  nodes fsys !! dir = None ->
  dir <> EmptyString ->
  nodes fsys !! filepath_Join [dir; file] = None.
Proof.
  intros Hwf Hdir Hne.
  destruct (decide (file = EmptyString)) as [-> | Hfile].
  - cbn [filepath_Join]. destruct (decide (dir = EmptyString)); [contradiction |].
    cbn. exact Hdir.
  - rewrite filepath_Join_pair by assumption.
    destruct (nodes fsys !! (dir +:+ "/" +:+ file)) as [n |] eqn:Hn; [| reflexivity].
    destruct (well_formed_ancestor fsys dir Hwf (S (String.length file)) file)
      as [n' Hn']; [lia | eauto |]. congruence.
Qed.

Lemma lookup_parent_nonempty name fsys :
  lookup_parent name fsys = None -> name <> EmptyString.
Proof.
  unfold lookup_parent. destruct (decide (name = EmptyString)); [discriminate | auto].
Qed.

End PathFacts.

(** ** Further properties of the program *)

(** The program unfolded, without splitting on the results of calls. *)
Ltac unfold_run :=
  cbv [main readIssuerKey writeFile checkDirectoryNotExists printVersion handleError
       bind ret os_Exit fmt_Println os_Stat os_Mkdir ioutil_WriteFile ioutil_ReadFile
       idemixca_GenerateIssuerKey idemixca_GenerateSignerConfig proto_Unmarshal
       metadata_GetVersionInfo logged with_fs];
  exec_simpl.

(** The calls that were split, as facts about the file systems. *)
Ltac calls_as_facts :=
  repeat match goal with
         | H : mkdir _ _ _ = (None, _) |- _ =>
             apply mkdir_ok in H; destruct H as (? & ? & ->)
         | H : mkdir _ _ _ = (Some _, _) |- _ =>
             apply mkdir_failed in H; subst
         | H : write_file _ _ _ _ = (None, _) |- _ =>
             apply write_file_ok in H; destruct H as (? & ? & -> & ? & ?)
         | H : write_file _ _ _ _ = (Some _, _) |- _ =>
             apply write_file_shape in H;
             destruct H as [[-> _] | (? & ? & ? & -> & _ & ? & ?)]
         end.

Section MoreProperties.

Context {IssuerPublicKey : Type}.
Context (ext : @Extern IssuerPublicKey).
Context (msp_IdemixConfigDirUser msp_IdemixConfigFileSigner : string).

#[local] Abbreviation World := (@World IssuerPublicKey).
#[local] Abbreviation run := (main ext msp_IdemixConfigDirUser msp_IdemixConfigFileSigner).

(** X1. No run of any command changes or removes what the working
    directory holds: in a well-formed tree every node present before the
    run is present, identical, after it, whether the run returns or
    exits. *)
Theorem existing_nodes_kept (command : Command) (w : World) :
  well_formed (fs w) ->
  nodes (fs w) ⊆ nodes (fs (final (run command w))).
Proof.
  intros Hwf. destruct w as [fsys out log]. cbn [fs] in Hwf.
  destruct command; exec; calls_as_facts; cbn [set_nodes nodes] in *;
    change (filepath_Join [IdemixDirIssuer; IdemixConfigIssuerSecretKey])
      with issuer_secret_key_file in *;
    change (filepath_Join [IdemixDirIssuer; msp_IdemixConfigFileIssuerPublicKey])
      with issuer_public_key_file in *;
    change (filepath_Join [msp_IdemixConfigDirMsp; msp_IdemixConfigFileIssuerPublicKey])
      with msp_public_key_file in *;
    repeat match goal with
           | H : context [<[_ := _]> _ !! _] |- _ =>
               rewrite lookup_insert_ne in H by distinct_names
           end;
    repeat (apply insert_subseteq_r; [| ]); try reflexivity; try assumption.
  all: first
    [ apply (well_formed_below _ issuer_secret_key_file IdemixDirIssuer Hwf eq_refl);
      assumption
    | apply (well_formed_below _ issuer_public_key_file IdemixDirIssuer Hwf eq_refl);
      assumption
    | apply (well_formed_below _ msp_public_key_file msp_IdemixConfigDirMsp Hwf eq_refl);
      assumption
    | apply joined_name_free;
      [assumption | assumption | eapply lookup_parent_nonempty; eassumption] ].
Qed.

(** X2. [ca-keygen] writes the secret component of the issuer key to
    [ca/IssuerSecretKey] and nowhere else: in every run, whatever its
    outcome, each file it writes is the secret key at that name or the
    serialized public key at one of the two public-key names, so what
    lands under the MSP root is the public key. *)
Theorem ca_keygen_writes (w : World) (seg : list Call) :
  calls (final (run genIssuerKey w)) = calls w ++ seg ->
  Forall (key_material_write (GenerateIssuerKey_result ext).1.1
            (GenerateIssuerKey_result ext).1.2) seg.
Proof.
  destruct w as [fsys out log].
  exec; cbn [calls]; split_log; intros Hcalls;
    apply app_inv_head in Hcalls; subst seg;
    repeat (apply Forall_cons; split; [cbn [key_material_write]; auto |]);
    apply Forall_nil; exact I.
Qed.

(** X3. What a run prints.  A run that exits has printed exactly one
    line, the message of the error that ended it: the error its last
    call returned, wrapped with the role and the name of the file when
    that call is the read of a key file, and the already-exists error of
    the command, naming the probed path, when that call is an [os.Stat]
    that found something.  A [ca-keygen] or a [signerconfig] that
    returns has printed nothing; [version] prints the version string and
    nothing else. *)
Theorem output_of_a_run (command : Command) (w : World) :
  match run command w with
  | Returned _ w' =>
      stdout w' =
      stdout w ++ match command with
                  | version => [GetVersionInfo_result ext]
                  | _ => []
                  end
  | Exited _ w' =>
      exists pre c e,
        calls w' = calls w ++ pre ++ [c] /\
        reported command c = Some e /\
        stdout w' = stdout w ++ [Error e]
  end.
Proof.
  destruct w as [fsys out log].
  destruct command; exec; cbn [calls stdout]; split_log; rewrite ?app_nil_r;
    try reflexivity.
  all: ends_with; eexists; split; [reflexivity |]; split; reflexivity.
Qed.

(** X4. [readIssuerKey] only reads.  Whatever the working directory
    holds, it leaves the file system as it was; it makes at most three
    calls, none of which creates or writes anything; when it returns it
    has printed nothing, and when it ends the process it does so with
    status 1 after printing one line. *)
Theorem readIssuerKey_read_only (w : World) :
  fs (final (readIssuerKey ext w)) = fs w /\
  (exists seg,
     calls (final (readIssuerKey ext w)) = calls w ++ seg /\
     forallb (fun c => negb (mutates c)) seg = true /\
     (length seg <= 3)%nat) /\
  match readIssuerKey ext w with
  | Returned _ w' => stdout w' = stdout w
  | Exited code w' => code = 1 /\ exists line, stdout w' = stdout w ++ [line]
  end.
Proof.
  rewrite readIssuerKey_eq.
  destruct (read_file issuer_secret_key_file (fs w)) as [isk [e |]].
  { split; [reflexivity |]. split; [| eauto].
    eexists. split; [reflexivity |]. split; [reflexivity | cbn; lia]. }
  destruct (read_file issuer_public_key_file (fs w)) as [ipkBytes [e |]].
  { split; [reflexivity |]. split; [| eauto].
    eexists. split; [reflexivity |]. split; [reflexivity | cbn; lia]. }
  cbv zeta.
  destruct (snd (Unmarshal_result ext ipkBytes (IssuerPublicKey_empty ext))) as [e |].
  - split; [reflexivity |]. split; [| eauto].
    eexists. split; [reflexivity |]. split; [reflexivity | cbn; lia].
  - split; [reflexivity |]. split; [| cbn [stdout]; apply app_nil_r].
    eexists. split; [reflexivity |]. split; [reflexivity | cbn; lia].
Qed.

(** *** The runs that return *)



(** What [readIssuerKey] leaves behind when it returns. *)
Lemma readIssuerKey_returned (w w1 : World) (key : IssuerKey) :
  readIssuerKey ext w = Returned key w1 ->
  fs w1 = fs w /\ stdout w1 = stdout w.
Proof.
  rewrite readIssuerKey_eq.
  destruct (read_file issuer_secret_key_file (fs w)) as [isk [e |]];
    [discriminate |].
  destruct (read_file issuer_public_key_file (fs w)) as [ipkBytes [e |]];
    [discriminate |].
  cbv zeta.
  destruct (snd (Unmarshal_result ext ipkBytes (IssuerPublicKey_empty ext)));
    [discriminate |].
  intros [= _ <-]. cbn [fs stdout]. rewrite app_nil_r. auto.
Qed.

(** [signerconfig] that returned: the calls it made and what it left. *)
Lemma signerconfig_returned
    (genCredOU : string) (genCredIsAdmin : bool) (w w' : World) :
  well_formed (fs w) ->
  run (genSignerConfig genCredOU genCredIsAdmin) w = Returned tt w' ->
  let file := filepath_Join [msp_IdemixConfigDirUser; msp_IdemixConfigFileSigner] in
  exists key w1 config,
    readIssuerKey ext w = Returned key w1 /\
    GenerateSignerConfig_result ext genCredIsAdmin genCredOU key = (config, None) /\
    nodes (fs w) !! msp_IdemixConfigDirUser = None /\
    stdout w' = stdout w /\
    nodes (fs w') =
      <[file := File (create_mode (octal 6 4 0) (fs w)) config]>
        (<[msp_IdemixConfigDirUser := Dir (create_mode (octal 7 7 0) (fs w))]>
           (nodes (fs w))) /\
    calls w' =
      calls w1 ++
        [ Call_GenerateSignerConfig genCredIsAdmin genCredOU key None;
          Call_Stat msp_IdemixConfigDirUser
            (Some (PathError "stat" msp_IdemixConfigDirUser ENOENT));
          Call_Mkdir msp_IdemixConfigDirUser (octal 7 7 0) None;
          Call_WriteFile file config (octal 6 4 0) None ].
Proof.
  intros Hwf Hrun file. subst file. revert Hrun. cbv [main bind].
  destruct (readIssuerKey ext w) as [key w1 | code w1] eqn:Hread; [| discriminate].
  destruct (readIssuerKey_returned w w1 key Hread) as [Hfs Hout].
  destruct w1 as [fsys1 out1 log1]. destruct w as [fsys out log].
  cbn [fs stdout] in *. subst fsys1 out1.
  exec; try discriminate. intros [= <-].
  set (file := filepath_Join [msp_IdemixConfigDirUser; msp_IdemixConfigFileSigner])
    in *.
  match goal with
  | H : mkdir _ _ _ = (None, _) |- _ =>
      apply mkdir_ok in H; destruct H as (Hparent & Hdir & ->)
  end.
  match goal with
  | H : write_file _ _ _ _ = (None, _) |- _ =>
      apply write_file_ok in H; destruct H as (_ & mode & -> & Hnew & Hold)
  end.
  cbn [set_nodes nodes] in Hnew, Hold.
  pose proof (lookup_parent_nonempty _ _ Hparent) as Hne.
  assert (Hfile : msp_IdemixConfigDirUser <> file).
  { intros Heq. rewrite <- Heq, lookup_insert_eq in Hold.
    destruct (Hold _ eq_refl) as [old Hnode]. discriminate Hnode. }
  rewrite lookup_insert_ne in Hnew by assumption.
  rewrite (Hnew (joined_name_free _ _ _ Hwf Hdir Hne)).
  match goal with
  | H : stat _ _ = Some ?e |- _ =>
      assert (e = PathError "stat" msp_IdemixConfigDirUser ENOENT) as ->
        by (eapply stat_absent; eassumption)
  end.
  eexists key, _, _. split; [reflexivity |]. split; [eassumption |].
  split; [assumption |]. cbn [fs stdout calls set_nodes nodes]. split_log.
  repeat split.
Qed.

(** X6. [signerconfig] that returns.  In a well-formed tree, a run of
    [signerconfig] that returns has reconstructed the issuer key, called
    the generator once, with the admin flag, the organizational unit and
    that key, and found the signer directory absent; it has printed
    nothing, and the tree at the end is the initial one plus the signer
    directory and the file in it, which holds exactly the bytes the
    generator returned. *)
Theorem signerconfig_success
    (genCredOU : string) (genCredIsAdmin : bool) (w w' : World) :
  well_formed (fs w) ->
  run (genSignerConfig genCredOU genCredIsAdmin) w = Returned tt w' ->
  let file := filepath_Join [msp_IdemixConfigDirUser; msp_IdemixConfigFileSigner] in
  exists key w1 config,
    readIssuerKey ext w = Returned key w1 /\
    GenerateSignerConfig_result ext genCredIsAdmin genCredOU key = (config, None) /\
    nodes (fs w) !! msp_IdemixConfigDirUser = None /\
    stdout w' = stdout w /\
    nodes (fs w') =
      <[file := File (create_mode (octal 6 4 0) (fs w)) config]>
        (<[msp_IdemixConfigDirUser := Dir (create_mode (octal 7 7 0) (fs w))]>
           (nodes (fs w))) /\
    calls w' =
      calls w1 ++
        [ Call_GenerateSignerConfig genCredIsAdmin genCredOU key None;
          Call_Stat msp_IdemixConfigDirUser
            (Some (PathError "stat" msp_IdemixConfigDirUser ENOENT));
          Call_Mkdir msp_IdemixConfigDirUser (octal 7 7 0) None;
          Call_WriteFile file config (octal 6 4 0) None ].
Proof. exact (signerconfig_returned genCredOU genCredIsAdmin w w'). Qed.

(** X8. [signerconfig] when a collaborator fails.  With both key files
    readable, if the public-key bytes do not decode the run is refused
    with the error of [proto.Unmarshal] and the signer generator is not
    called; if they decode and the generator fails the run is refused
    with the generator's error.  In both cases the signer directory is
    neither probed nor created. *)
Theorem signerconfig_collaborator_errors
    (genCredOU : string) (genCredIsAdmin : bool) (w : World)
    (isk ipkBytes : list byte) :
  read_file issuer_secret_key_file (fs w) = (isk, None) ->
  read_file issuer_public_key_file (fs w) = (ipkBytes, None) ->
  let o := run (genSignerConfig genCredOU genCredIsAdmin) w in
  let r := Unmarshal_result ext ipkBytes (IssuerPublicKey_empty ext) in
  let key := MkIssuerKey isk (fst r) in
  let reads :=
    [ Call_ReadFile issuer_secret_key_file None;
      Call_ReadFile issuer_public_key_file None ] in
  (forall e,
     snd r = Some e ->
     refused e w o /\
     calls (final o) = calls w ++ reads ++ [Call_Unmarshal ipkBytes (Some e)]) /\
  (forall e,
     snd r = None ->
     snd (GenerateSignerConfig_result ext genCredIsAdmin genCredOU key) = Some e ->
     refused e w o /\
     calls (final o) =
       calls w ++ reads ++
         [ Call_Unmarshal ipkBytes None;
           Call_GenerateSignerConfig genCredIsAdmin genCredOU key (Some e) ]).
Proof.
  intros Hsk Hpk o r key reads. subst o.
  destruct w as [fsys out log]. cbn [fs] in *.
  unfold refused. unfold_run.
  change (filepath_Join [IdemixDirIssuer; IdemixConfigIssuerSecretKey])
    with issuer_secret_key_file.
  change (filepath_Join [IdemixDirIssuer; msp_IdemixConfigFileIssuerPublicKey])
    with issuer_public_key_file.
  rewrite Hsk. exec_simpl. rewrite Hpk. exec_simpl.
  subst key. fold r.
  destruct r as [ipk [e |]]; cbn [fst snd]; exec_simpl.
  - split; [| intros e' [=]].
    intros e' [= <-]. split; [| split_log; reflexivity].
    eexists _, _. split; [reflexivity |]. split_log. repeat split.
  - split; [intros e' [=] |]. intros e _ Hgen.
    destruct (GenerateSignerConfig_result ext genCredIsAdmin genCredOU
                (MkIssuerKey isk ipk)) as [config [e' |]];
      cbn [snd] in Hgen; [| discriminate]. injection Hgen as ->.
    exec_simpl. split; [| split_log; reflexivity].
    eexists _, _. split; [reflexivity |]. split_log. repeat split.
Qed.

Lemma read_file_in_issuer_root (name : string) (fsys1 fsys2 : FileSystem) :
  parent name = Some IdemixDirIssuer ->
  nodes fsys1 !! IdemixDirIssuer = nodes fsys2 !! IdemixDirIssuer ->
  nodes fsys1 !! name = nodes fsys2 !! name ->
  read_file name fsys1 = read_file name fsys2.
Proof.
  intros Hparent Hroot Hname. unfold read_file, lookup_parent.
  rewrite Hparent, Hroot, Hname. reflexivity.
Qed.

(** X10. Reconstruction consults the issuer root and nothing else.  Two
    working directories that agree on the issuer root and on the two key
    files in it give the same result, whatever else they hold (the copy
    of the public key under the MSP root, for one): the same key when
    [readIssuerKey] returns, the same status and the same message when
    it ends the process. *)
Theorem readIssuerKey_issuer_root_only (w1 w2 : World) :
  nodes (fs w1) !! IdemixDirIssuer = nodes (fs w2) !! IdemixDirIssuer ->
  nodes (fs w1) !! issuer_secret_key_file = nodes (fs w2) !! issuer_secret_key_file ->
  nodes (fs w1) !! issuer_public_key_file = nodes (fs w2) !! issuer_public_key_file ->
  match readIssuerKey ext w1, readIssuerKey ext w2 with
  | Returned key1 _, Returned key2 _ => key1 = key2
  | Exited code1 w1', Exited code2 w2' =>
      code1 = code2 /\
      exists line, stdout w1' = stdout w1 ++ [line] /\ stdout w2' = stdout w2 ++ [line]
  | _, _ => False
  end.
Proof.
  intros Hroot Hsk Hpk. rewrite !readIssuerKey_eq.
  rewrite (read_file_in_issuer_root issuer_secret_key_file _ _ eq_refl Hroot Hsk).
  rewrite (read_file_in_issuer_root issuer_public_key_file _ _ eq_refl Hroot Hpk).
  destruct (read_file issuer_secret_key_file (fs w2)) as [isk [e |]]; [eauto |].
  destruct (read_file issuer_public_key_file (fs w2)) as [ipkBytes [e |]]; [eauto |].
  cbv zeta.
  destruct (snd (Unmarshal_result ext ipkBytes (IssuerPublicKey_empty ext)));
    cbn [stdout]; eauto.
Qed.

(** The signer directory is there once [signerconfig] has returned. *)
Lemma signerconfig_leaves_directory
    (genCredOU : string) (genCredIsAdmin : bool) (w w1 : World) :
  run (genSignerConfig genCredOU genCredIsAdmin) w = Returned tt w1 ->
  is_Some (nodes (fs w1) !! msp_IdemixConfigDirUser).
Proof.
  destruct w as [fsys out log].
  exec; try discriminate. intros [= <-]. calls_as_facts.
  cbn [fs set_nodes nodes].
  match goal with
  | |- is_Some (<[?p := _]> _ !! _) =>
      destruct (decide (p = msp_IdemixConfigDirUser)) as [-> | Hne]
  end.
  - rewrite lookup_insert_eq. eauto.
  - rewrite lookup_insert_ne by assumption. rewrite lookup_insert_eq. eauto.
Qed.

(** With the signer directory in place the run ends with status 1 and
    changes nothing. *)
Lemma signerconfig_guard (genCredOU : string) (genCredIsAdmin : bool) (w : World) :
  stat msp_IdemixConfigDirUser (fs w) = None ->
  exists w' e,
    run (genSignerConfig genCredOU genCredIsAdmin) w = Exited 1 w' /\
    fs w' = fs w /\
    stdout w' = stdout w ++ [Error e].
Proof.
  intros Hstat. destruct w as [fsys out log]. cbn [fs] in Hstat.
  exec; try congruence; eexists _, _; repeat split.
Qed.

End MoreProperties.

(** X11. [signerconfig] is not re-runnable.  After a [signerconfig]
    that returned in a well-formed tree, every further [signerconfig],
    whatever its flags and however the collaborators answer, ends with
    status 1 after printing one error and leaves the file system as it
    was: the first signer is never replaced. *)
Theorem signerconfig_not_rerunnable {IssuerPublicKey : Type}
    (first ext : @Extern IssuerPublicKey) (dirUser fileSigner : string)
    (ou ou' : string) (admin admin' : bool) (w w1 : @World IssuerPublicKey) :
  well_formed (fs w) ->
  main first dirUser fileSigner (genSignerConfig ou admin) w = Returned tt w1 ->
  exists w2 e,
    main ext dirUser fileSigner (genSignerConfig ou' admin') w1 = Exited 1 w2 /\
    fs w2 = fs w1 /\
    stdout w2 = stdout w1 ++ [Error e].
Proof.
  intros Hwf Hfirst.
  pose proof (run_well_formed first dirUser fileSigner (genSignerConfig ou admin) w Hwf)
    as Hwf1.
  rewrite Hfirst in Hwf1. cbn [final] in Hwf1.
  destruct (signerconfig_leaves_directory first dirUser fileSigner ou admin w w1 Hfirst)
    as [n Hn].
  apply signerconfig_guard.
  exact (stat_exists _ _ _ (well_formed_lookup _ _ _ Hwf1 Hn) Hn).
Qed.

(** What [readIssuerKey] returns after a [ca-keygen] that returned, its
    collaborators being those of the later process. *)
Lemma readIssuerKey_after_ca_keygen {IssuerPublicKey : Type}
    (first reader : @Extern IssuerPublicKey) (dirUser fileSigner : string)
    (w w1 w3 : @World IssuerPublicKey) (isk ipk : list byte)
    (key : @IssuerKey IssuerPublicKey) :
  main first dirUser fileSigner genIssuerKey w = Returned tt w1 ->
  (GenerateIssuerKey_result first).1 = (isk, ipk) ->
  readIssuerKey reader w1 = Returned key w3 ->
  let r := Unmarshal_result reader ipk (IssuerPublicKey_empty reader) in
  key = MkIssuerKey isk (fst r) /\ snd r = None.
Proof.
  intros Hrun Hgen Hread r.
  destruct (ca_keygen_success first dirUser fileSigner w w1 Hrun)
    as (isk' & ipk' & m1 & m2 & m3 & Hgen' & _ & _ & _ & _ & Hnodes & _).
  rewrite Hgen' in Hgen. cbn [fst] in Hgen. injection Hgen as -> ->.
  assert (Hsk : nodes (fs w1) !! issuer_secret_key_file = Some (File m1 isk)).
  { rewrite Hnodes. rewrite !lookup_insert_ne by distinct_names.
    apply lookup_insert_eq. }
  assert (Hpk : nodes (fs w1) !! issuer_public_key_file = Some (File m2 ipk)).
  { rewrite Hnodes. rewrite lookup_insert_ne by distinct_names.
    apply lookup_insert_eq. }
  rewrite readIssuerKey_eq in Hread.
  destruct (read_file issuer_secret_key_file (fs w1)) as [secret [e |]] eqn:Hread1;
    [discriminate |].
  destruct (read_file issuer_public_key_file (fs w1)) as [public [e |]] eqn:Hread2;
    [discriminate |].
  apply read_file_returned in Hread1 as [mode1 Hread1].
  apply read_file_returned in Hread2 as [mode2 Hread2].
  rewrite Hsk in Hread1. rewrite Hpk in Hread2.
  injection Hread1 as _ <-. injection Hread2 as _ <-.
  cbv zeta in Hread. fold r in Hread.
  destruct (snd r) as [e |]; [discriminate |].
  injection Hread as <- _. split; reflexivity.
Qed.

(** X7. [ca-keygen] followed by [signerconfig], each with collaborators
    of its own.  When a [ca-keygen] in a well-formed tree and the
    [signerconfig] that follows it both return, the public bytes that
    [ca-keygen] generated were decoded, and the key handed to the signer
    generator is made of the secret bytes that [ca-keygen] generated and
    of the decoding of those public bytes; the signer file holds the
    bytes the generator returned, and everything [ca-keygen] left is
    still in place. *)
Theorem ca_keygen_then_signerconfig {IssuerPublicKey : Type}
    (first ext : @Extern IssuerPublicKey) (dirUser fileSigner : string)
    (genCredOU : string) (genCredIsAdmin : bool)
    (w w1 w2 : @World IssuerPublicKey) (isk ipk : list byte) :
  well_formed (fs w) ->
  main first dirUser fileSigner genIssuerKey w = Returned tt w1 ->
  (GenerateIssuerKey_result first).1 = (isk, ipk) ->
  main ext dirUser fileSigner (genSignerConfig genCredOU genCredIsAdmin) w1 =
    Returned tt w2 ->
  let r := Unmarshal_result ext ipk (IssuerPublicKey_empty ext) in
  let key := MkIssuerKey isk (fst r) in
  let file := filepath_Join [dirUser; fileSigner] in
  exists config,
    snd r = None /\
    GenerateSignerConfig_result ext genCredIsAdmin genCredOU key = (config, None) /\
    Call_GenerateSignerConfig genCredIsAdmin genCredOU key None ∈ calls w2 /\
    nodes (fs w2) !! file = Some (File (create_mode (octal 6 4 0) (fs w1)) config) /\
    nodes (fs w1) ⊆ nodes (fs w2).
Proof.
  intros Hwf Hkeygen Hgen Hsigner r key file.
  pose proof (run_well_formed first dirUser fileSigner genIssuerKey w Hwf) as Hwf1.
  rewrite Hkeygen in Hwf1. cbn [final] in Hwf1.
  destruct (signerconfig_returned ext dirUser fileSigner genCredOU genCredIsAdmin
              w1 w2 Hwf1 Hsigner)
    as (key' & w3 & config & Hread & Hconfig & Hdir & _ & Hnodes & Hcalls).
  destruct (readIssuerKey_after_ca_keygen first ext dirUser fileSigner
              w w1 w3 isk ipk key' Hkeygen Hgen Hread) as [-> Hdecode].
  fold r key file in Hconfig, Hnodes, Hcalls |- *.
  exists config. split; [assumption |]. split; [assumption |].
  split; [| split].
  - rewrite Hcalls, elem_of_app. right. apply list_elem_of_here.
  - rewrite Hnodes. apply lookup_insert_eq.
  - rewrite Hnodes. apply insert_subseteq_r.
    + apply joined_name_free; [assumption | assumption |].
      intros ->. revert Hsigner. destruct w1 as [fsys out log].
      exec; discriminate.
    + apply insert_subseteq. assumption.
Qed.





(** ** The further properties on the scenarios *)

(** [signerconfig] in a provisioned working directory keeps what
    [ca-keygen] made. *)
Lemma existing_nodes_kept_witness :
  nodes (fs provisioned_world) ⊆ nodes (fs signer_world).
Proof.
  apply (existing_nodes_kept sample_ext signer_dir signer_file
           (genSignerConfig "org1" false) provisioned_world).
  by_evaluation.
Defined.

(** The writes of [ca-keygen] in an empty working directory. *)
Lemma ca_keygen_writes_witness :
  Forall (key_material_write secret_bytes public_bytes) (calls provisioned_world).
Proof.
  apply (ca_keygen_writes sample_ext signer_dir signer_file fresh_world).
  reflexivity.
Defined.


(** [signerconfig] in a provisioned working directory. *)
Lemma signerconfig_success_witness :
  nodes (fs provisioned_world) !! signer_dir = None /\
  nodes (fs signer_world) !! filepath_Join [signer_dir; signer_file] =
    Some (File (octal 6 4 0) config_bytes).
Proof.
  destruct (signerconfig_success sample_ext signer_dir signer_file "org1" false
              provisioned_world signer_world)
    as (key & w1 & config & _ & Hconfig & Hdir & _ & Hnodes & _).
  - by_evaluation.
  - vm_compute. reflexivity.
  - split; [exact Hdir |]. injection Hconfig as <-.
    rewrite Hnodes. vm_compute. reflexivity.
Defined.

(** [ca-keygen] then [signerconfig] from an empty working directory, the
    second by a process whose own key generator would fail. *)
Lemma ca_keygen_then_signerconfig_witness :
  Call_GenerateSignerConfig true "org1"
    (MkIssuerKey secret_bytes public_fields) None
    ∈ calls (final (main failing_generator_ext signer_dir signer_file
                      (genSignerConfig "org1" true) provisioned_world)) /\
  nodes (fs provisioned_world)
    ⊆ nodes (fs (final (main failing_generator_ext signer_dir signer_file
                          (genSignerConfig "org1" true) provisioned_world))).
Proof.
  destruct (ca_keygen_then_signerconfig sample_ext failing_generator_ext
              signer_dir signer_file "org1" true
              fresh_world provisioned_world
              (final (main failing_generator_ext signer_dir signer_file
                        (genSignerConfig "org1" true) provisioned_world))
              secret_bytes public_bytes)
    as (config & _ & _ & Hcall & _ & Hkept).
  - by_evaluation.
  - vm_compute. reflexivity.
  - reflexivity.
  - vm_compute. reflexivity.
  - split; [exact Hcall | exact Hkept].
Defined.

(** [signerconfig] over a truncated public key, and with a generator
    that fails. *)
Lemma signerconfig_collaborator_errors_witness :
  refused (ForeignError "proto: cannot parse invalid wire-format data") garbled_world
    (main sample_ext signer_dir signer_file (genSignerConfig "org1" false)
       garbled_world) /\
  refused (ForeignError "cannot mint credential") provisioned_world
    (main failing_signer_ext signer_dir signer_file (genSignerConfig "org1" false)
       provisioned_world).
Proof.
  split.
  - destruct (signerconfig_collaborator_errors sample_ext signer_dir signer_file
                "org1" false garbled_world secret_bytes [])
      as [Hdecode _]; [vm_compute; reflexivity | vm_compute; reflexivity |].
    apply Hdecode. reflexivity.
  - destruct (signerconfig_collaborator_errors failing_signer_ext signer_dir
                signer_file "org1" false provisioned_world secret_bytes public_bytes)
      as [_ Hgenerate]; [vm_compute; reflexivity | vm_compute; reflexivity |].
    apply Hgenerate; reflexivity.
Defined.

(** Reconstruction does not see the copy under the MSP root. *)
Lemma readIssuerKey_issuer_root_only_witness :
  nodes (fs provisioned_world) !! msp_public_key_file <>
    nodes (fs republished_world) !! msp_public_key_file /\
  exists key wa wb,
    readIssuerKey sample_ext provisioned_world = Returned key wa /\
    readIssuerKey sample_ext republished_world = Returned key wb.
Proof.
  split; [vm_compute; discriminate |].
  generalize (readIssuerKey_issuer_root_only sample_ext provisioned_world
                republished_world).
  destruct (readIssuerKey sample_ext provisioned_world) as [key1 wa | c1 wa] eqn:E1;
    [| vm_compute in E1; discriminate E1].
  destruct (readIssuerKey sample_ext republished_world) as [key2 wb | c2 wb] eqn:E2;
    [| vm_compute in E2; discriminate E2].
  intros Hsame. exists key1, wa, wb. split; [reflexivity |].
  rewrite (Hsame ltac:(vm_compute; reflexivity) ltac:(vm_compute; reflexivity)
             ltac:(vm_compute; reflexivity)).
  reflexivity.
Defined.

(** A second signer in a working directory that has one. *)
Lemma signerconfig_not_rerunnable_witness :
  exists w2 e,
    main sample_ext signer_dir signer_file (genSignerConfig "org2" true) signer_world
      = Exited 1 w2 /\
    fs w2 = fs signer_world /\
    stdout w2 = stdout signer_world ++ [Error e].
Proof.
  apply (signerconfig_not_rerunnable sample_ext sample_ext signer_dir signer_file
           "org1" "org2" false true provisioned_world signer_world).
  - by_evaluation.
  - vm_compute. reflexivity.
Defined.

